(** * Shipping & Logistics Inventory API: stock accounting and shipment status

    A shallow embedding of [main.py] and [schemas.py].  The handlers are
    written in a state-and-exception monad over the document store; every
    storage call may raise, following a failure schedule carried by the
    state, so that the order of the handlers' side effects is observable.

    Quantities are Python floats in the source: they are binary64 numbers
    here too ([PrimFloat.float]), added, subtracted and compared by the
    machine operations, so that what is stated of a quantity is stated of
    the rounded value the handler stores.  The exact value of a quantity,
    a rational, is used only to state what the spec says of exact sums. *)

From Stdlib Require Import Bool List String Ascii NArith ZArith QArith Lia Lqa.
From Stdlib Require Import Floats.
From Stdlib Require Import Sorting.Sorted Sorting.Permutation.
Import ListNotations.

Local Open Scope string_scope.
Local Open Scope list_scope.

(** ** Documents *)

(** [bson.ObjectId]: twelve bytes, read here as a number. *)
Definition ObjectId := N.

(** schemas.py, [MovementItem]. *)
Record MovementItem := mkMovementItem {
  it_item_id : string;
  it_quantity : float
}.

(** schemas.py, [InventoryMovement]. *)
Record InventoryMovement := mkInventoryMovement {
  mv_type : string;
  mv_warehouse_id : string;
  mv_item_id : string;
  mv_quantity : float;
  mv_reference : option string;
  mv_notes : option string;
  mv_related_id : option string
}.

(** schemas.py, [ShipmentCreate]. *)
Record ShipmentCreate := mkShipmentCreate {
  sc_shipment_no : string;
  sc_origin_warehouse_id : string;
  sc_destination_warehouse_id : option string;
  sc_destination_name : option string;
  sc_items : list MovementItem
}.

(** schemas.py, [ShipmentUpdateStatus]: the status is any string. *)
Record ShipmentUpdateStatus := mkShipmentUpdateStatus {
  body_status : string
}.

(** A document of the [inventorymovement] collection. *)
Record MovementDoc := mkMovementDoc {
  mdoc_id : ObjectId;
  mdoc_body : InventoryMovement
}.

(** A document of the [stock] collection.  The handler reads the quantity
    with [doc.get("quantity", 0)], so the field is optional. *)
Record StockDoc := mkStockDoc {
  st_id : ObjectId;
  st_warehouse_id : string;
  st_item_id : string;
  st_quantity : option float
}.

(** A document of the [shipment] collection, as [create_shipment] builds it. *)
Record ShipmentDoc := mkShipmentDoc {
  sh_id : ObjectId;
  sh_shipment_no : string;
  sh_origin_warehouse_id : string;
  sh_destination_warehouse_id : option string;
  sh_destination_name : option string;
  sh_status : string;
  sh_items : list MovementItem
}.

(** ** The store *)

(** The three collections the handlers touch, the source of fresh
    [_id]s, and the failure schedule: each storage call consumes the head
    of [outages] and raises when it is [true]; an empty schedule means the
    store is available from then on. *)
Record State := mkState {
  db_inventorymovement : list MovementDoc;
  db_stock : list StockDoc;
  db_shipment : list ShipmentDoc;
  next_oid : ObjectId;
  outages : list bool
}.

Definition empty_db : State := mkState [] [] [] 0%N [].

Definition set_inventorymovement (c : list MovementDoc) (s : State) : State :=
  mkState c (db_stock s) (db_shipment s) (next_oid s) (outages s).
Definition set_stock (c : list StockDoc) (s : State) : State :=
  mkState (db_inventorymovement s) c (db_shipment s) (next_oid s) (outages s).
Definition set_shipment (c : list ShipmentDoc) (s : State) : State :=
  mkState (db_inventorymovement s) (db_stock s) c (next_oid s) (outages s).
Definition set_next_oid (n : ObjectId) (s : State) : State :=
  mkState (db_inventorymovement s) (db_stock s) (db_shipment s) n (outages s).
Definition set_outages (o : list bool) (s : State) : State :=
  mkState (db_inventorymovement s) (db_stock s) (db_shipment s) (next_oid s) o.

(** ** Exceptions and the handler monad *)

Inductive Exn :=
| HTTPException (status_code : Z) (detail : string)
| ValidationError
| StorageError.

Inductive Res (A : Type) :=
| Ok (a : A)
| Raise (e : Exn).
Arguments Ok {A} a.
Arguments Raise {A} e.

Definition M (A : Type) : Type := State -> Res A * State.

Definition ret {A} (a : A) : M A := fun s => (Ok a, s).
Definition raise {A} (e : Exn) : M A := fun s => (Raise e, s).
Definition bind {A B} (c : M A) (k : A -> M B) : M B :=
  fun s => match c s with
           | (Ok a, s') => k a s'
           | (Raise e, s') => (Raise e, s')
           end.

Notation "x <- c ;; k" := (bind c (fun x => k))
  (at level 61, c at next level, right associativity).
Notation "c ;;; k" := (bind c (fun _ => k))
  (at level 61, right associativity).

(** A [for] loop whose body is run for its effects; an exception in the
    body leaves the loop with the effects of the earlier rounds in place. *)
Fixpoint for_each {A} (l : list A) (body : A -> M unit) : M unit :=
  match l with
  | [] => ret tt
  | x :: r => body x ;;; for_each r body
  end.

(** ** Storage calls *)

Definition storage_call : M unit :=
  fun s => match outages s with
           | [] => (Ok tt, s)
           | false :: o => (Ok tt, set_outages o s)
           | true :: o => (Raise StorageError, set_outages o s)
           end.

Definition fresh_oid : M ObjectId :=
  fun s => (Ok (next_oid s), set_next_oid (next_oid s + 1)%N s).

(** [Collection.find_one]: the first document that matches. *)
Definition find_one {A} (p : A -> bool) (c : list A) : option A := find p c.

(** [Collection.update_one]: the first document that matches is updated. *)
Fixpoint update_one {A} (p : A -> bool) (f : A -> A) (c : list A) : list A :=
  match c with
  | [] => []
  | d :: r => if p d then f d :: r else d :: update_one p f r
  end.

(** [Collection.insert_one]: the document goes last. *)
Definition insert_one {A} (d : A) (c : list A) : list A := c ++ [d].

(** [str(ObjectId)]: twenty-four lower-case hexadecimal digits. *)
Definition hex_digit (n : N) : ascii :=
  nth (N.to_nat n) (list_ascii_of_string "0123456789abcdef") "0"%char.

Fixpoint hex_digits (k : nat) (n : N) (acc : string) : string :=
  match k with
  | O => acc
  | S k' => hex_digits k' (n / 16)%N (String (hex_digit (n mod 16)%N) acc)
  end.

Definition str_ObjectId (o : ObjectId) : string := hex_digits 24 o "".

Definition hex_value (c : ascii) : option N :=
  let n := N_of_ascii c in
  if ((48 <=? n) && (n <=? 57))%N then Some (n - 48)%N
  else if ((97 <=? n) && (n <=? 102))%N then Some (n - 87)%N
  else if ((65 <=? n) && (n <=? 70))%N then Some (n - 55)%N
  else None.

(** The characters [bytes.fromhex] skips: space, and tab to carriage
    return. *)
Definition is_space (c : ascii) : bool :=
  let n := N_of_ascii c in
  ((n =? 32) || ((9 <=? n) && (n <=? 13)))%N.

(** [bytes.fromhex]: bytes written as two hexadecimal digits each, with
    ASCII whitespace allowed before a byte and at the end.  The result is
    the number of bytes read and their value, most significant first. *)
Fixpoint fromhex (s : string) (count : nat) (acc : N) : option (nat * N) :=
  match s with
  | EmptyString => Some (count, acc)
  | String c r =>
      if is_space c then fromhex r count acc
      else match hex_value c, r with
           | Some hi, String c2 r2 =>
               match hex_value c2 with
               | Some lo => fromhex r2 (S count) (256 * acc + 16 * hi + lo)%N
               | None => None
               end
           | _, _ => None
           end
  end.

(** The largest number twelve bytes hold, plus one. *)
Definition oid_bound : N := (2 ^ 96)%N.

(** An id of fewer than twelve bytes, which [fromhex] yields for a string
    of twenty-four characters some of which are whitespace: it is given a
    number above those of the twelve-byte ids. *)
Definition short_id (count : nat) (v : N) : ObjectId :=
  (oid_bound + 2 ^ (8 * N.of_nat count) + v)%N.

(** [ObjectId(id_str)] on a string: the string has twenty-four characters
    and [bytes.fromhex] reads it. *)
Definition ObjectId_of_string (s : string) : option ObjectId :=
  if (String.length s =? 24)%nat
  then match fromhex s 0 0%N with
       | Some (count, v) =>
           if (count =? 12)%nat then Some v else Some (short_id count v)
       | None => None
       end
  else None.

(** main.py, [to_obj_id]. *)
Definition to_obj_id (id_str : string) : M ObjectId :=
  match ObjectId_of_string id_str with
  | Some o => ret o
  | None => raise (HTTPException 400 "Invalid id")
  end.

(** Python truthiness of an optional string: [None] and the empty string
    are false. *)
Definition truthy (o : option string) : bool :=
  match o with
  | Some s => negb (s =? "")
  | None => false
  end.

(** ** Validation (schemas.py) *)

(** [Field(..., gt=0)]: the float comparison [q > 0], false of NaN. *)
Definition gt0 (q : float) : bool := (0 <? q)%float.

(** Building an [InventoryMovement] runs the field constraints. *)
Definition InventoryMovement_validate (mv : InventoryMovement)
  : M InventoryMovement :=
  if gt0 (mv_quantity mv) then ret mv else raise ValidationError.

Definition MovementItem_validate (it : MovementItem) : M MovementItem :=
  if gt0 (it_quantity it) then ret it else raise ValidationError.

Fixpoint validate_items (l : list MovementItem) : M (list MovementItem) :=
  match l with
  | [] => ret []
  | it :: r =>
      it' <- MovementItem_validate it ;;
      r' <- validate_items r ;;
      ret (it' :: r')
  end.

Definition ShipmentCreate_validate (p : ShipmentCreate) : M ShipmentCreate :=
  validate_items (sc_items p) ;;; ret p.

(** ** Collections *)

(** Modelled from the spec: [database.create_document], of which only the
    call is in the source.  The spec's Movement Recorder has it "persist
    the immutable movement record" and fail with [StorageError] "if
    persistence fails"; it returns the new document's id as a string. *)
Definition create_document (mv : InventoryMovement) : M string :=
  storage_call ;;;
  oid <- fresh_oid ;;
  (fun s => (Ok tt, set_inventorymovement
                      (insert_one (mkMovementDoc oid mv) (db_inventorymovement s)) s)) ;;;
  ret (str_ObjectId oid).

(** The filter [{"warehouse_id": w, "item_id": i}]. *)
Definition stock_key (w i : string) (d : StockDoc) : bool :=
  (st_warehouse_id d =? w) && (st_item_id d =? i).

Definition stock_find_one (w i : string) : M (option StockDoc) :=
  storage_call ;;;
  (fun s => (Ok (find_one (stock_key w i) (db_stock s)), s)).

(** [update_one(key, {"$set": {"quantity": qty}})]. *)
Definition set_quantity (qty : float) (d : StockDoc) : StockDoc :=
  mkStockDoc (st_id d) (st_warehouse_id d) (st_item_id d) (Some qty).

Definition stock_update_one (w i : string) (qty : float) : M unit :=
  storage_call ;;;
  (fun s => (Ok tt, set_stock
                      (update_one (stock_key w i) (set_quantity qty) (db_stock s)) s)).

(** [insert_one({**key, "quantity": qty})]. *)
Definition stock_insert_one (w i : string) (qty : float) : M unit :=
  storage_call ;;;
  oid <- fresh_oid ;;
  (fun s => (Ok tt, set_stock
                      (insert_one (mkStockDoc oid w i (Some qty)) (db_stock s)) s)).

(** [doc.get("quantity", 0) if doc else 0]. *)
Definition doc_quantity (doc : option StockDoc) : float :=
  match doc with
  | Some d => match st_quantity d with Some q => q | None => 0%float end
  | None => 0%float
  end.

(** ** main.py, [inventory_move] *)

Record MoveResponse := mkMoveResponse {
  resp_movement_id : string;
  resp_quantity : float
}.

Definition inventory_move (mv : InventoryMovement) : M MoveResponse :=
  movement_id <- create_document mv ;;
  doc <- stock_find_one (mv_warehouse_id mv) (mv_item_id mv) ;;
  let qty := doc_quantity doc in
  let qty := if mv_type mv =? "in" then (qty + mv_quantity mv)%float
             else (qty - mv_quantity mv)%float in
  match doc with
  | Some _ => stock_update_one (mv_warehouse_id mv) (mv_item_id mv) qty
  | None => stock_insert_one (mv_warehouse_id mv) (mv_item_id mv) qty
  end ;;;
  ret (mkMoveResponse movement_id qty).

(** [inventory_move] in two steps, for calls that overlap.  Lines 118 to
    122: the movement is persisted and the stock document of the key is
    read. *)
Definition move_read (mv : InventoryMovement) : M (string * option StockDoc) :=
  movement_id <- create_document mv ;;
  doc <- stock_find_one (mv_warehouse_id mv) (mv_item_id mv) ;;
  ret (movement_id, doc).

(** Lines 123 to 129: the new quantity is computed from the document that
    was read, and written. *)
Definition move_write (mv : InventoryMovement)
           (read : string * option StockDoc) : M MoveResponse :=
  let doc := snd read in
  let qty := doc_quantity doc in
  let qty := if mv_type mv =? "in" then (qty + mv_quantity mv)%float
             else (qty - mv_quantity mv)%float in
  match doc with
  | Some _ => stock_update_one (mv_warehouse_id mv) (mv_item_id mv) qty
  | None => stock_insert_one (mv_warehouse_id mv) (mv_item_id mv) qty
  end ;;;
  ret (mkMoveResponse (fst read) qty).

(** [POST /inventory/move]: the body is validated against
    [InventoryMovement] before the handler runs. *)
Definition post_inventory_move (body : InventoryMovement) : M MoveResponse :=
  mv <- InventoryMovement_validate body ;;
  inventory_move mv.

(** ** main.py, [get_stock] *)

(** A stock document as the endpoint returns it: [_id] replaced by its
    string under [id]. *)
Record StockOut := mkStockOut {
  so_id : string;
  so_warehouse_id : string;
  so_item_id : string;
  so_quantity : option float
}.

(** The filter dictionary: a key is set only for a truthy argument. *)
Definition stock_filter (warehouse_id item_id : option string) (d : StockDoc) : bool :=
  (match warehouse_id with
   | Some w => if truthy warehouse_id then st_warehouse_id d =? w else true
   | None => true
   end)
  &&
  (match item_id with
   | Some i => if truthy item_id then st_item_id d =? i else true
   | None => true
   end).

(** [Cursor.limit]: zero means no limit, a negative limit counts as its
    absolute value. *)
Definition cursor_limit {A} (limit : Z) (l : list A) : list A :=
  if (limit =? 0)%Z then l else firstn (Z.abs_nat limit) l.

Definition stock_out (d : StockDoc) : StockOut :=
  mkStockOut (str_ObjectId (st_id d)) (st_warehouse_id d) (st_item_id d)
             (st_quantity d).

Definition get_stock (warehouse_id item_id : option string) (limit : Z)
  : M (list StockOut) :=
  storage_call ;;;
  (fun s => (Ok (map stock_out
                   (cursor_limit limit
                      (filter (stock_filter warehouse_id item_id) (db_stock s)))), s)).

(** ** main.py, [create_shipment] *)

Definition shipment_insert_one (mk : ObjectId -> ShipmentDoc) : M ObjectId :=
  storage_call ;;;
  oid <- fresh_oid ;;
  (fun s => (Ok tt, set_shipment (insert_one (mk oid) (db_shipment s)) s)) ;;;
  ret oid.

Definition create_shipment (payload : ShipmentCreate) : M string :=
  inserted <- shipment_insert_one
                (fun oid => mkShipmentDoc oid
                   (sc_shipment_no payload)
                   (sc_origin_warehouse_id payload)
                   (sc_destination_warehouse_id payload)
                   (sc_destination_name payload)
                   "created"
                   (sc_items payload)) ;;
  ret (str_ObjectId inserted).

(** [POST /shipments]: the body is validated against [ShipmentCreate]. *)
Definition post_shipments (body : ShipmentCreate) : M string :=
  payload <- ShipmentCreate_validate body ;;
  create_shipment payload.

(** ** main.py, [update_shipment_status] *)

Definition shipment_id_is (oid : ObjectId) (d : ShipmentDoc) : bool :=
  (sh_id d =? oid)%N.

Definition shipment_find_one (oid : ObjectId) : M (option ShipmentDoc) :=
  storage_call ;;;
  (fun s => (Ok (find_one (shipment_id_is oid) (db_shipment s)), s)).

(** [{"$set": {"status": status}}]. *)
Definition set_status (status : string) (d : ShipmentDoc) : ShipmentDoc :=
  mkShipmentDoc (sh_id d) (sh_shipment_no d) (sh_origin_warehouse_id d)
                (sh_destination_warehouse_id d) (sh_destination_name d)
                status (sh_items d).

Definition shipment_update_one (oid : ObjectId) (status : string) : M unit :=
  storage_call ;;;
  (fun s => (Ok tt, set_shipment
                      (update_one (shipment_id_is oid) (set_status status)
                                  (db_shipment s)) s)).

(** The movement built for one line of a shipment. *)
Definition line_movement (type warehouse : string) (ship : ShipmentDoc)
           (it : MovementItem) : InventoryMovement :=
  mkInventoryMovement type warehouse (it_item_id it) (it_quantity it)
                      (Some (sh_shipment_no ship)) None None.

Definition move_line (type warehouse : string) (ship : ShipmentDoc)
           (it : MovementItem) : M unit :=
  mv <- InventoryMovement_validate (line_movement type warehouse ship it) ;;
  inventory_move mv ;;;
  ret tt.

(** Lines 164 to 166: the shipment is read, or the request ends in 400
    or 404. *)
Definition read_shipment (shipment_id : string) : M ShipmentDoc :=
  oid <- to_obj_id shipment_id ;;
  ship <- shipment_find_one oid ;;
  match ship with
  | Some d => ret d
  | None => raise (HTTPException 404 "Shipment not found")
  end.

(** Lines 168 to 184: the status is written, whatever the shipment's
    status was when it was read, and the movements follow from the
    requested status alone. *)
Definition apply_status (ship : ShipmentDoc) (body : ShipmentUpdateStatus)
  : M string :=
  let status := body_status body in
  shipment_update_one (sh_id ship) status ;;;
  (if status =? "picked"
   then for_each (sh_items ship)
                 (move_line "out" (sh_origin_warehouse_id ship) ship)
   else ret tt) ;;;
  (if status =? "delivered"
   then match sh_destination_warehouse_id ship with
        | Some w =>
            if truthy (Some w)
            then for_each (sh_items ship) (move_line "in" w ship)
            else ret tt
        | None => ret tt
        end
   else ret tt) ;;;
  ret status.

Definition update_shipment_status (shipment_id : string)
           (body : ShipmentUpdateStatus) : M string :=
  ship <- read_shipment shipment_id ;;
  apply_status ship body.

(** ** Reading the state *)

(** The quantity on hand as [inventory_move] reads it: the first stock
    document of the key, zero when there is none. *)
Definition stock_quantity (s : State) (w i : string) : float :=
  doc_quantity (find_one (stock_key w i) (db_stock s)).

(** The movements on record, without their ids. *)
Definition ledger (s : State) : list InventoryMovement :=
  map mdoc_body (db_inventorymovement s).

Definition movement_on (w i : string) (mv : InventoryMovement) : bool :=
  (mv_warehouse_id mv =? w) && (mv_item_id mv =? i).

(** The exact value of a binary64 number, a rational; zero for NaN and
    the infinities, which have none. *)
Definition exact (q : float) : Q :=
  match Prim2SF q with
  | S754_finite s m e =>
      ((if s then Z.neg m else Z.pos m) # 1) * Qpower (2 # 1) e
  | _ => 0
  end%Q.

(** The exact sum of the quantities of the movements of one type on one
    key. *)
Fixpoint sum_of_type (type w i : string) (l : list InventoryMovement) : Q :=
  match l with
  | [] => 0
  | mv :: r =>
      (if movement_on w i mv && (mv_type mv =? type)
       then exact (mv_quantity mv) else 0)
      + sum_of_type type w i r
  end%Q.

(** Replay of the ledger, in the spec's words: the sum of the 'in'
    movements minus the sum of the 'out' movements of the key, as exact
    numbers. *)
Definition replay (l : list InventoryMovement) (w i : string) : Q :=
  (sum_of_type "in" w i l - sum_of_type "out" w i l)%Q.



(** Replay in submission order: from a starting quantity, every 'in'
    movement of the key is added and every 'out' movement subtracted, one
    after the other, in binary64. *)
Definition replay_step (w i : string) (acc : float) (mv : InventoryMovement)
  : float :=
  if movement_on w i mv
  then if mv_type mv =? "in" then (acc + mv_quantity mv)%float
       else if mv_type mv =? "out" then (acc - mv_quantity mv)%float
       else acc
  else acc.

Definition replay_from (start : float) (l : list InventoryMovement)
           (w i : string) : float :=
  fold_left (replay_step w i) l start.

Definition replay_in_order (l : list InventoryMovement) (w i : string)
  : float :=
  replay_from 0%float l w i.

(** The status FastAPI answers with, for an endpoint whose only
    validation is that of the request body: 200 for a returned value, the
    status of an [HTTPException], 422 for a body that fails validation
    (the framework's handler of request validation errors; main.py
    registers no other), 500 for any other exception. *)
Definition response_status {A} (r : Res A) : Z :=
  match r with
  | Ok _ => 200
  | Raise (HTTPException status_code _) => status_code
  | Raise ValidationError => 422
  | Raise StorageError => 500
  end%Z.

(** Modelled from the spec: the transition table of section 4.3, which
    the source does not have.  It is used only to state what the spec
    asks of [update_shipment_status]. *)
Definition allowed_transition (current requested : string) : bool :=
  ((current =? "created") && (requested =? "picked"))
  || ((current =? "picked") && (requested =? "in_transit"))
  || ((current =? "in_transit") && (requested =? "delivered"))
  || ((current =? "created") && (requested =? "cancelled"))
  || ((current =? "picked") && (requested =? "cancelled")).

(** Running a handler: its outcome and the state it leaves. *)
Definition outcome {A} (c : M A) (s : State) : Res A := fst (c s).
Definition after {A} (c : M A) (s : State) : State := snd (c s).

(** ** Closed forms of the handlers *)

(** The quantity [inventory_move] computes for the key of [mv]. *)
Definition new_quantity (mv : InventoryMovement) (s : State) : float :=
  let qty := stock_quantity s (mv_warehouse_id mv) (mv_item_id mv) in
  if mv_type mv =? "in" then (qty + mv_quantity mv)%float
  else (qty - mv_quantity mv)%float.

(** The state a call of [inventory_move] leaves when its three storage
    calls go through. *)
Definition moved (mv : InventoryMovement) (s : State) : State :=
  let w := mv_warehouse_id mv in
  let i := mv_item_id mv in
  let doc := find_one (stock_key w i) (db_stock s) in
  mkState
    (insert_one (mkMovementDoc (next_oid s) mv) (db_inventorymovement s))
    (match doc with
     | Some _ => update_one (stock_key w i) (set_quantity (new_quantity mv s))
                            (db_stock s)
     | None => insert_one
                 (mkStockDoc (next_oid s + 1)%N w i (Some (new_quantity mv s)))
                 (db_stock s)
     end)
    (db_shipment s)
    (match doc with
     | Some _ => next_oid s + 1
     | None => next_oid s + 1 + 1
     end)%N
    (skipn 3 (outages s)).

(** The answer of [inventory_move]: the id of the movement and the new
    quantity. *)
Definition move_response (mv : InventoryMovement) (s : State) : MoveResponse :=
  mkMoveResponse (str_ObjectId (next_oid s)) (new_quantity mv s).

(** ** Invariants and the statements of the spec *)

(** The stock of every key is, exactly, the replay of the movements on
    record. *)
Definition ledger_replay_invariant (s : State) : Prop :=
  forall w i, (exact (stock_quantity s w i) == replay (ledger s) w i)%Q.

(** The stock of every key is the replay in submission order of the
    movements on record. *)
Definition stock_follows_ledger (s : State) : Prop :=
  forall w i, stock_quantity s w i = replay_in_order (ledger s) w i.

(** The two types [schemas.py] documents for a movement. *)
Definition in_or_out (mv : InventoryMovement) : Prop :=
  mv_type mv = "in" \/ mv_type mv = "out".

(** The store answers every call from [s] on. *)
Definition available (s : State) : Prop := outages s = [].

(** The state after the movements [mvs], first to last. *)
Definition moved_all (mvs : list InventoryMovement) (s : State) : State :=
  fold_left (fun s' mv => moved mv s') mvs s.

(** The movements a status request gives rise to: they depend on the
    requested status and on the shipment's lines and warehouses, not on the
    shipment's status. *)
Definition emitted (ship : ShipmentDoc) (status : string)
  : list InventoryMovement :=
  (if status =? "picked"
   then map (line_movement "out" (sh_origin_warehouse_id ship) ship)
            (sh_items ship)
   else [])
  ++
  (if status =? "delivered"
   then match sh_destination_warehouse_id ship with
        | Some w => if truthy (Some w)
                    then map (line_movement "in" w ship) (sh_items ship)
                    else []
        | None => []
        end
   else []).

(** The state after the status has been written to the shipment. *)
Definition status_written (ship : ShipmentDoc) (status : string) (s : State)
  : State :=
  set_shipment (update_one (shipment_id_is (sh_id ship)) (set_status status)
                           (db_shipment s)) s.

(** The state [apply_status] leaves when the store answers. *)
Definition applied (ship : ShipmentDoc) (status : string) (s : State) : State :=
  moved_all (emitted ship status) (status_written ship status s).

(** Quantities that pass [gt=0]. *)
Definition positive (mvs : list InventoryMovement) : Prop :=
  Forall (fun mv => gt0 (mv_quantity mv) = true) mvs.

Definition lines_positive (ship : ShipmentDoc) : Prop :=
  Forall (fun it => gt0 (it_quantity it) = true) (sh_items ship).

(** ** Requests and reachable states *)

Inductive Request :=
| PostInventoryMove (body : InventoryMovement)
| GetStock (warehouse_id item_id : option string) (limit : Z)
| PostShipments (body : ShipmentCreate)
| PatchShipmentStatus (shipment_id : string) (body : ShipmentUpdateStatus).

(** The state a request leaves, whether it is answered or ends in an
    exception. *)
Definition serve (r : Request) (s : State) : State :=
  match r with
  | PostInventoryMove body => after (post_inventory_move body) s
  | GetStock w i limit => after (get_stock w i limit) s
  | PostShipments body => after (post_shipments body) s
  | PatchShipmentStatus shipment_id body =>
      after (update_shipment_status shipment_id body) s
  end.

(** The states the service reaches when it starts on empty collections,
    under any failure schedule, and serves requests one at a time, each to
    its end before the next begins.  Calls that overlap are written out
    step by step where a statement is about them. *)
Inductive reachable : State -> Prop :=
| reachable_start (o : list bool) : reachable (set_outages o empty_db)
| reachable_serve (r : Request) (s : State) :
    reachable s -> reachable (serve r s).

(** Every stock document stands for a key that has a movement on record. *)
Definition stock_backed (s : State) : Prop :=
  forall d, In d (db_stock s) ->
  exists mv, In mv (ledger s)
             /\ movement_on (st_warehouse_id d) (st_item_id d) mv = true.

(** A handler keeps [P], whether it returns or raises. *)
Definition preserves {A} (P : State -> Prop) (c : M A) : Prop :=
  forall s, P s -> P (snd (c s)).

(** Successful calls of [POST /inventory/move], one after the other:
    [None] as soon as one of them is not answered. *)
Fixpoint post_moves (l : list InventoryMovement) (s : State) : option State :=
  match l with
  | [] => Some s
  | mv :: r =>
      match post_inventory_move mv s with
      | (Ok _, s') => post_moves r s'
      | (Raise _, _) => None
      end
  end.

(** ** Example requests and states *)

Definition transfer_5 : InventoryMovement :=
  mkInventoryMovement "transfer" "W1" "A" 5 None None None.
Definition in_10 : InventoryMovement :=
  mkInventoryMovement "in" "W1" "A" 10 None None None.
Definition out_3 : InventoryMovement :=
  mkInventoryMovement "out" "W1" "A" 3 None None None.
Definition zero_in : InventoryMovement :=
  mkInventoryMovement "in" "W1" "A" 0 None None None.

(** Quantities whose sums are not exact in binary64: 2^53 and 1; 0.1, 0.3
    and 0.2 as the nearest binary64 numbers; 2^54 and 1. *)
Definition in_2p53 : InventoryMovement :=
  mkInventoryMovement "in" "W1" "A" 0x1p53 None None None.
Definition in_1 : InventoryMovement :=
  mkInventoryMovement "in" "W1" "A" 1 None None None.
Definition in_2p54 : InventoryMovement :=
  mkInventoryMovement "in" "W1" "A" 0x1p54 None None None.
Definition out_1 : InventoryMovement :=
  mkInventoryMovement "out" "W1" "A" 1 None None None.

(** The key has no movement on record. *)
Definition no_movement (s : State) (w i : string) : Prop :=
  forall mv, In mv (ledger s) -> movement_on w i mv = false.

(** What the spec asks of the answer: an entry for the pair that carries
    the quantity [q]. *)
Definition reports_quantity (res : Res (list StockOut)) (w i : string)
           (q : float) : Prop :=
  exists docs d q',
    res = Ok docs /\ In d docs
    /\ so_warehouse_id d = w /\ so_item_id d = i
    /\ so_quantity d = Some q' /\ (q' =? q)%float = true.

(** Ten units of A received in W1, on the empty store. *)
Definition stocked : State := serve (PostInventoryMove in_10) empty_db.

(** The scenario of the spec: ten units of A in W1, then shipment SHP-1
    from W1 to W2 with one line of five units of A. *)
Definition shp1 : ShipmentCreate :=
  mkShipmentCreate "SHP-1" "W1" (Some "W2") None [mkMovementItem "A" 5].
Definition shp1_id : string := "000000000000000000000002".
Definition status_body (status : string) : ShipmentUpdateStatus :=
  mkShipmentUpdateStatus status.

Definition created : State := after (post_shipments shp1) stocked.
Definition picked : State :=
  after (update_shipment_status shp1_id (status_body "picked")) created.
Definition in_transit : State :=
  after (update_shipment_status shp1_id (status_body "in_transit")) picked.
Definition delivered : State :=
  after (update_shipment_status shp1_id (status_body "delivered")) in_transit.

(** The status the store holds for a shipment. *)
Definition stored_status (s : State) (oid : ObjectId) : option string :=
  option_map sh_status (find_one (shipment_id_is oid) (db_shipment s)).

(** The documents of SHP-1 as the store holds them. *)
Definition shp1_picked : ShipmentDoc :=
  mkShipmentDoc 2%N "SHP-1" "W1" (Some "W2") None "picked"
                [mkMovementItem "A" 5].
Definition shp1_created : ShipmentDoc :=
  mkShipmentDoc 2%N "SHP-1" "W1" (Some "W2") None "created"
                [mkMovementItem "A" 5].

(** A shipment to an external destination: no destination warehouse. *)
Definition shp2 : ShipmentCreate :=
  mkShipmentCreate "SHP-2" "W1" None (Some "Customer X")
                   [mkMovementItem "A" 5].
Definition shp2_created : ShipmentDoc :=
  mkShipmentDoc 2%N "SHP-2" "W1" None (Some "Customer X") "created"
                [mkMovementItem "A" 5].
Definition created_external : State := after (post_shipments shp2) stocked.

(** What the spec asks of two racing calls: one is answered, one is
    not. *)
Definition is_ok {A} (r : Res A) : bool :=
  match r with Ok _ => true | Raise _ => false end.

Definition exactly_one_succeeds {A} (ra rb : Res A) : Prop :=
  xorb (is_ok ra) (is_ok rb) = true.

(** ** main.py, [list_shipments] *)

(** A shipment document as the endpoint returns it: [_id] replaced by its
    string under [id]. *)
Record ShipmentOut := mkShipmentOut {
  sho_id : string;
  sho_shipment_no : string;
  sho_origin_warehouse_id : string;
  sho_destination_warehouse_id : option string;
  sho_destination_name : option string;
  sho_status : string;
  sho_items : list MovementItem
}.

Definition shipment_out (d : ShipmentDoc) : ShipmentOut :=
  mkShipmentOut (str_ObjectId (sh_id d)) (sh_shipment_no d)
                (sh_origin_warehouse_id d) (sh_destination_warehouse_id d)
                (sh_destination_name d) (sh_status d) (sh_items d).

(** [Cursor.sort("_id", -1)]: by [_id], greatest first. *)
Fixpoint insert_desc (d : ShipmentDoc) (l : list ShipmentDoc)
  : list ShipmentDoc :=
  match l with
  | [] => [d]
  | x :: r => if (sh_id x <? sh_id d)%N then d :: x :: r
              else x :: insert_desc d r
  end.

Definition sort_desc (l : list ShipmentDoc) : list ShipmentDoc :=
  fold_right insert_desc [] l.

Definition list_shipments (limit : Z) : M (list ShipmentOut) :=
  storage_call ;;;
  (fun s => (Ok (map shipment_out
                   (cursor_limit limit (sort_desc (db_shipment s)))), s)).

(** ** Further invariants and examples *)

Definition stock_key_of (d : StockDoc) : string * string :=
  (st_warehouse_id d, st_item_id d).

(** At most one stock document for a (warehouse, item) pair. *)
Definition stock_keys_unique (s : State) : Prop :=
  NoDup (map stock_key_of (db_stock s)).

(** Every stored shipment has lines that pass [gt=0]. *)
Definition shipments_positive (s : State) : Prop :=
  Forall lines_positive (db_shipment s).

(** Every stored shipment was given an [_id] the store has already used. *)
Definition shipment_ids_fresh (s : State) : Prop :=
  Forall (fun d => (sh_id d < next_oid s)%N) (db_shipment s).

(** Greatest [_id] first. *)
Definition descending (l : list ShipmentDoc) : Prop :=
  Sorted (fun a b => (sh_id b <= sh_id a)%N) l.

(** The document [create_shipment] stores for a payload. *)
Definition shipment_doc (oid : ObjectId) (payload : ShipmentCreate)
  : ShipmentDoc :=
  mkShipmentDoc oid (sc_shipment_no payload) (sc_origin_warehouse_id payload)
                (sc_destination_warehouse_id payload)
                (sc_destination_name payload) "created" (sc_items payload).

(** The store refuses the second, or the third, of the storage calls to
    come. *)
Definition fails_second (s : State) : Prop :=
  exists o, outages s = false :: true :: o.
Definition fails_third (s : State) : Prop :=
  exists o, outages s = false :: false :: true :: o.

Definition out_4_b : InventoryMovement :=
  mkInventoryMovement "out" "W2" "B" 4 None None None.
Definition in_7_b : InventoryMovement :=
  mkInventoryMovement "in" "W2" "B" 7 None None None.
Definition shp_bad : ShipmentCreate :=
  mkShipmentCreate "SHP-3" "W1" None None
                   [mkMovementItem "A" 5; mkMovementItem "B" 0].
Definition shp_blank : ShipmentCreate :=
  mkShipmentCreate "SHP-4" "W1" (Some "") None [mkMovementItem "A" 5].
Definition shp_blank_doc : ShipmentDoc := shipment_doc 2%N shp_blank.

(** Requests served one after the other. *)
Definition serve_all (rs : list Request) (s : State) : State :=
  fold_left (fun s' r => serve r s') rs s.

(** The movement documents of [s'] are those of [s], in place, followed
    by new ones. *)
Definition extends_movements (s s' : State) : Prop :=
  exists l, db_inventorymovement s' = db_inventorymovement s ++ l.

(** The state [create_shipment] leaves when the store answers. *)
Definition shipment_created (payload : ShipmentCreate) (s : State) : State :=
  mkState (db_inventorymovement s) (db_stock s)
          (insert_one (shipment_doc (next_oid s) payload) (db_shipment s))
          (next_oid s + 1)%N
          (skipn 1 (outages s)).

(** The store answers the next [n] storage calls and refuses the one
    after them. *)
Definition fails_after (n : nat) (s : State) : Prop :=
  exists o, outages s = repeat false n ++ true :: o.

Definition shp_two_lines : ShipmentDoc :=
  mkShipmentDoc 9%N "SHP-9" "W1" None None "created"
                [mkMovementItem "A" 5; mkMovementItem "B" 2].
Definition two_lines : State :=
  mkState [] [] [shp_two_lines] 10%N
          [false; false; false; false; false; true].

(** * Properties *)


(** ** Collections *)

Section Collections.
Context {A : Type}.
Variables (p q : A -> bool) (f : A -> A).

Lemma find_one_update_one_same (c : list A) :
  (forall d, p d = true -> p (f d) = true) ->
  find_one p (update_one p f c) = option_map f (find_one p c).
Proof.
  intros Hkeep. unfold find_one.
  induction c as [|d r IH]; simpl; [reflexivity|].
  destruct (p d) eqn:Hd; simpl.
  - rewrite (Hkeep d Hd). reflexivity.
  - rewrite Hd. exact IH.
Qed.

Lemma find_one_update_one_other (c : list A) :
  (forall d, q (f d) = q d) ->
  (forall d, p d = true -> q d = false) ->
  find_one q (update_one p f c) = find_one q c.
Proof.
  intros Hq Hdisj. unfold find_one.
  induction c as [|d r IH]; simpl; [reflexivity|].
  destruct (p d) eqn:Hd; simpl.
  - rewrite Hq, (Hdisj d Hd). reflexivity.
  - destruct (q d); [reflexivity | exact IH].
Qed.

Lemma find_one_insert_one (d : A) (c : list A) :
  find_one p (insert_one d c) =
  match find_one p c with
  | Some x => Some x
  | None => if p d then Some d else None
  end.
Proof.
  unfold find_one, insert_one.
  induction c as [|x r IH]; simpl; [reflexivity|].
  destruct (p x); [reflexivity | exact IH].
Qed.

Lemma find_one_Some (c : list A) (d : A) :
  find_one p c = Some d -> In d c /\ p d = true.
Proof. unfold find_one. apply find_some. Qed.

Lemma find_one_None (c : list A) :
  find_one p c = None -> forall d, In d c -> p d = false.
Proof. unfold find_one. apply find_none. Qed.

Lemma update_one_In (c : list A) (d : A) :
  In d (update_one p f c) -> In d c \/ exists d0, In d0 c /\ d = f d0.
Proof using Type.
  induction c as [|x r IH]; simpl.
  - intros [].
  - destruct (p x); simpl.
    + intros [<-|H].
      * right. exists x. split; [left; reflexivity | reflexivity].
      * left. right. exact H.
    + intros [<-|H]; [left; left; reflexivity|].
      destruct (IH H) as [H1|[d0 [H1 H2]]]; [left; right; exact H1|].
      right. exists d0. split; [right; exact H1 | exact H2].
Qed.
End Collections.

(** ** [inventory_move] in closed form *)

Ltac run_handler :=
  unfold inventory_move, create_document, stock_find_one, stock_update_one,
    stock_insert_one, storage_call, fresh_oid, bind, ret, raise,
    moved, move_response, new_quantity, stock_quantity; simpl.

Lemma inventory_move_Ok (mv : InventoryMovement) (s s' : State) (r : MoveResponse) :
  inventory_move mv s = (Ok r, s') ->
  r = move_response mv s /\ s' = moved mv s.
Proof.
  run_handler.
  destruct (outages s) as [|[|] [|[|] [|[|] o]]] eqn:E;
    repeat (simpl; rewrite ?E); try discriminate;
    destruct (find_one _ (db_stock s)) eqn:F;
    repeat (simpl; rewrite ?E); try discriminate;
    intros H; inversion H; subst; split; try reflexivity;
    unfold set_stock, set_inventorymovement, set_next_oid, set_outages;
    simpl; rewrite ?E; reflexivity.
Qed.

Lemma inventory_move_available (mv : InventoryMovement) (s : State) :
  outages s = [] ->
  inventory_move mv s = (Ok (move_response mv s), moved mv s).
Proof.
  intros E. run_handler. repeat (simpl; rewrite ?E).
  destruct (find_one _ (db_stock s)) eqn:F;
    repeat (simpl; rewrite ?E);
    unfold set_stock, set_inventorymovement, set_next_oid, set_outages;
    simpl; rewrite ?E; reflexivity.
Qed.

Lemma inventory_move_storage_failure (mv : InventoryMovement) (s : State)
      (o : list bool) :
  outages s = true :: o ->
  inventory_move mv s = (Raise StorageError, set_outages o s).
Proof.
  intros E. run_handler. rewrite E. reflexivity.
Qed.

(** Whatever the failure schedule, a call ends in one of three ways, and
    in each of them a change of the stock comes with the movement on
    record. *)
Lemma inventory_move_cases (mv : InventoryMovement) (s : State) :
  let s' := after (inventory_move mv) s in
  (outcome (inventory_move mv) s = Raise StorageError
   /\ db_inventorymovement s' = db_inventorymovement s
   /\ db_stock s' = db_stock s)
  \/ (outcome (inventory_move mv) s = Raise StorageError
      /\ db_inventorymovement s'
         = insert_one (mkMovementDoc (next_oid s) mv) (db_inventorymovement s)
      /\ db_stock s' = db_stock s)
  \/ (outcome (inventory_move mv) s = Ok (move_response mv s)
      /\ s' = moved mv s).
Proof.
  unfold after, outcome. run_handler.
  destruct (outages s) as [|[|] [|[|] [|[|] o]]] eqn:E;
    repeat (simpl; rewrite ?E);
    destruct (find_one _ (db_stock s)) eqn:F;
    repeat (simpl; rewrite ?E);
    try (left; repeat split; reflexivity);
    try (right; left; repeat split; reflexivity);
    right; right; split; try reflexivity;
    unfold set_stock, set_inventorymovement, set_next_oid, set_outages;
    simpl; rewrite ?E; reflexivity.
Qed.

(** ** The stock and the ledger after a movement *)

Lemma movement_on_eq (w i : string) (mv : InventoryMovement) :
  movement_on w i mv = true -> mv_warehouse_id mv = w /\ mv_item_id mv = i.
Proof.
  unfold movement_on. rewrite andb_true_iff, !String.eqb_eq. tauto.
Qed.

Lemma stock_key_set_quantity (w i : string) (qty : float) (d : StockDoc) :
  stock_key w i (set_quantity qty d) = stock_key w i d.
Proof. reflexivity. Qed.

Lemma stock_key_disjoint (w i w' i' : string) (d : StockDoc) :
  (w' =? w) && (i' =? i) = false ->
  stock_key w' i' d = true -> stock_key w i d = false.
Proof.
  unfold stock_key. rewrite andb_true_iff, !String.eqb_eq.
  intros Hne [<- <-]. exact Hne.
Qed.

Lemma ledger_moved (mv : InventoryMovement) (s : State) :
  ledger (moved mv s) = ledger s ++ [mv].
Proof.
  unfold ledger, moved, insert_one; simpl. rewrite map_app. reflexivity.
Qed.

Lemma stock_quantity_moved_same (mv : InventoryMovement) (s : State) :
  stock_quantity (moved mv s) (mv_warehouse_id mv) (mv_item_id mv)
  = new_quantity mv s.
Proof.
  unfold stock_quantity at 1. unfold moved; simpl.
  destruct (find_one _ (db_stock s)) eqn:F.
  - rewrite find_one_update_one_same, F by (intros; assumption). reflexivity.
  - rewrite (find_one_insert_one (stock_key _ _)), F. unfold stock_key; simpl.
    rewrite !String.eqb_refl. reflexivity.
Qed.

Lemma stock_quantity_moved_other (mv : InventoryMovement) (s : State)
      (w i : string) :
  movement_on w i mv = false ->
  stock_quantity (moved mv s) w i = stock_quantity s w i.
Proof.
  intros Hne. unfold stock_quantity, moved; simpl.
  destruct (find_one (stock_key (mv_warehouse_id mv) _) (db_stock s)) eqn:F.
  - rewrite find_one_update_one_other; [reflexivity | reflexivity |].
    intros d. apply stock_key_disjoint. exact Hne.
  - rewrite (find_one_insert_one (stock_key w i)).
    destruct (find_one (stock_key w i) (db_stock s)); [reflexivity|].
    unfold stock_key; simpl. unfold movement_on in Hne. rewrite Hne.
    reflexivity.
Qed.

Lemma find_moved_same (mv : InventoryMovement) (s : State) :
  exists d,
    find_one (stock_key (mv_warehouse_id mv) (mv_item_id mv))
             (db_stock (moved mv s)) = Some d
    /\ st_quantity d = Some (new_quantity mv s).
Proof.
  unfold moved; simpl.
  destruct (find_one _ (db_stock s)) as [d0|] eqn:F.
  - exists (set_quantity (new_quantity mv s) d0).
    rewrite find_one_update_one_same, F by (intros; assumption).
    split; reflexivity.
  - eexists. rewrite (find_one_insert_one (stock_key _ _)), F.
    unfold stock_key; simpl. rewrite !String.eqb_refl. simpl.
    split; reflexivity.
Qed.

Lemma find_moved_other (mv : InventoryMovement) (s : State) (w i : string) :
  movement_on w i mv = false ->
  find_one (stock_key w i) (db_stock (moved mv s))
  = find_one (stock_key w i) (db_stock s).
Proof.
  intros Hne. unfold moved; simpl.
  destruct (find_one (stock_key (mv_warehouse_id mv) _) (db_stock s)) eqn:F.
  - rewrite find_one_update_one_other; [reflexivity | reflexivity |].
    intros d. apply stock_key_disjoint. exact Hne.
  - rewrite (find_one_insert_one (stock_key w i)).
    destruct (find_one (stock_key w i) (db_stock s)); [reflexivity|].
    unfold stock_key; simpl. unfold movement_on in Hne. rewrite Hne.
    reflexivity.
Qed.



(** ** Replay in submission order *)

Lemma replay_from_app (start : float) (l l' : list InventoryMovement)
      (w i : string) :
  replay_from start (l ++ l') w i
  = replay_from (replay_from start l w i) l' w i.
Proof. unfold replay_from. apply fold_left_app. Qed.

Lemma stock_quantity_moved (mv : InventoryMovement) (s : State) (w i : string) :
  in_or_out mv ->
  stock_quantity (moved mv s) w i = replay_step w i (stock_quantity s w i) mv.
Proof.
  intros Hty. unfold replay_step.
  destruct (movement_on w i mv) eqn:Hon.
  - destruct (movement_on_eq _ _ _ Hon) as [<- <-].
    rewrite stock_quantity_moved_same. unfold new_quantity.
    destruct Hty as [-> | ->]; reflexivity.
  - apply stock_quantity_moved_other, Hon.
Qed.

Lemma stock_quantity_moved_all (mvs : list InventoryMovement) (s : State)
      (w i : string) :
  Forall in_or_out mvs ->
  stock_quantity (moved_all mvs s) w i
  = replay_from (stock_quantity s w i) mvs w i.
Proof.
  intros Hty. revert s. induction Hty as [|mv r Hmv Hr IH]; intros s.
  - reflexivity.
  - change (moved_all (mv :: r) s) with (moved_all r (moved mv s)).
    rewrite IH, stock_quantity_moved by exact Hmv. reflexivity.
Qed.

Lemma moved_follows_ledger (mv : InventoryMovement) (s : State) :
  in_or_out mv ->
  stock_follows_ledger s -> stock_follows_ledger (moved mv s).
Proof.
  intros Hty Hinv w i.
  rewrite ledger_moved. unfold replay_in_order.
  rewrite replay_from_app. fold (replay_in_order (ledger s) w i).
  rewrite <- (Hinv w i). simpl.
  apply stock_quantity_moved, Hty.
Qed.

(** ** [update_shipment_status] in closed form *)

Lemma available_moved (mv : InventoryMovement) (s : State) :
  available s -> available (moved mv s).
Proof. unfold available, moved; simpl. intros ->. reflexivity. Qed.

Lemma available_moved_all (mvs : list InventoryMovement) (s : State) :
  available s -> available (moved_all mvs s).
Proof.
  revert s. induction mvs as [|mv r IH]; simpl; intros s H; [exact H|].
  apply IH, available_moved, H.
Qed.

Lemma moved_all_app (l l' : list InventoryMovement) (s : State) :
  moved_all (l ++ l') s = moved_all l' (moved_all l s).
Proof. unfold moved_all. apply fold_left_app. Qed.

Lemma ledger_moved_all (mvs : list InventoryMovement) (s : State) :
  ledger (moved_all mvs s) = ledger s ++ mvs.
Proof.
  revert s. induction mvs as [|mv r IH]; simpl; intros s.
  - rewrite app_nil_r. reflexivity.
  - unfold moved_all in *; simpl. rewrite IH, ledger_moved, <- app_assoc.
    reflexivity.
Qed.

Lemma db_shipment_moved_all (mvs : list InventoryMovement) (s : State) :
  db_shipment (moved_all mvs s) = db_shipment s.
Proof.
  revert s. induction mvs as [|mv r IH]; simpl; intros s; [reflexivity|].
  unfold moved_all in *; simpl. rewrite IH. reflexivity.
Qed.

Lemma move_line_available (type w : string) (ship : ShipmentDoc)
      (it : MovementItem) (s : State) :
  available s ->
  gt0 (it_quantity it) = true ->
  move_line type w ship it s = (Ok tt, moved (line_movement type w ship it) s).
Proof.
  intros Hs Hq. unfold move_line, InventoryMovement_validate, bind at 1.
  simpl. rewrite Hq. unfold ret at 1. unfold bind at 1.
  rewrite inventory_move_available by exact Hs. reflexivity.
Qed.

Lemma for_each_move_line (type w : string) (ship : ShipmentDoc)
      (items : list MovementItem) (s : State) :
  available s ->
  Forall (fun it => gt0 (it_quantity it) = true) items ->
  for_each items (move_line type w ship) s
  = (Ok tt, moved_all (map (line_movement type w ship) items) s).
Proof.
  revert s. induction items as [|it r IH]; intros s Hs Hpos; [reflexivity|].
  inversion Hpos as [|? ? Hit Hr]; subst. simpl. unfold bind at 1.
  rewrite move_line_available by assumption.
  apply IH; [apply available_moved, Hs | exact Hr].
Qed.

Lemma positive_map_lines (type w : string) (ship : ShipmentDoc)
      (items : list MovementItem) :
  positive (map (line_movement type w ship) items) ->
  Forall (fun it => gt0 (it_quantity it) = true) items.
Proof.
  unfold positive. rewrite Forall_map. simpl. auto.
Qed.

Lemma lines_positive_emitted (ship : ShipmentDoc) (status : string) :
  lines_positive ship -> positive (emitted ship status).
Proof.
  intros H. unfold positive, emitted. apply Forall_app. split.
  - destruct (status =? "picked"); [|constructor].
    rewrite Forall_map. exact H.
  - destruct (status =? "delivered"); [|constructor].
    destruct (sh_destination_warehouse_id ship) as [w|]; [|constructor].
    destruct (truthy (Some w)); [|constructor].
    rewrite Forall_map. exact H.
Qed.

Lemma apply_status_available (ship : ShipmentDoc) (body : ShipmentUpdateStatus)
      (s : State) :
  available s ->
  positive (emitted ship (body_status body)) ->
  apply_status ship body s
  = (Ok (body_status body), applied ship (body_status body) s).
Proof.
  intros Hs Hpos. unfold positive, emitted in Hpos.
  apply Forall_app in Hpos. destruct Hpos as [Hout Hin].
  unfold apply_status, applied, emitted. rewrite moved_all_app.
  unfold bind at 1. unfold shipment_update_one, bind at 1, storage_call.
  rewrite Hs. fold (status_written ship (body_status body) s).
  assert (H1 : available (status_written ship (body_status body) s)) by exact Hs.
  set (s1 := status_written ship (body_status body) s) in *.
  unfold bind at 1.
  assert (Hpick :
    (if body_status body =? "picked"
     then for_each (sh_items ship)
            (move_line "out" (sh_origin_warehouse_id ship) ship)
     else ret tt) s1
    = (Ok tt,
       moved_all
         (if body_status body =? "picked"
          then map (line_movement "out" (sh_origin_warehouse_id ship) ship)
                   (sh_items ship)
          else []) s1)).
  { destruct (body_status body =? "picked"); [|reflexivity].
    apply for_each_move_line; [exact H1 | apply positive_map_lines in Hout; exact Hout]. }
  rewrite Hpick. clear Hpick.
  set (s2 := moved_all _ s1).
  assert (H2 : available s2) by (apply available_moved_all, H1).
  unfold bind at 1.
  destruct (body_status body =? "delivered"); [|reflexivity].
  destruct (sh_destination_warehouse_id ship) as [w|]; [|reflexivity].
  destruct (truthy (Some w)); [|reflexivity].
  rewrite for_each_move_line;
    [reflexivity | exact H2 | apply positive_map_lines in Hin; exact Hin].
Qed.

Lemma read_shipment_available (shipment_id : string) (oid : ObjectId)
      (ship : ShipmentDoc) (s : State) :
  available s ->
  ObjectId_of_string shipment_id = Some oid ->
  find_one (shipment_id_is oid) (db_shipment s) = Some ship ->
  read_shipment shipment_id s = (Ok ship, s).
Proof.
  intros Hs Hid Hf.
  unfold read_shipment, to_obj_id, shipment_find_one, storage_call, bind, ret.
  rewrite Hid, Hs, Hf. reflexivity.
Qed.

Lemma update_shipment_status_available (shipment_id : string) (oid : ObjectId)
      (ship : ShipmentDoc) (body : ShipmentUpdateStatus) (s : State) :
  available s ->
  ObjectId_of_string shipment_id = Some oid ->
  find_one (shipment_id_is oid) (db_shipment s) = Some ship ->
  positive (emitted ship (body_status body)) ->
  update_shipment_status shipment_id body s
  = (Ok (body_status body), applied ship (body_status body) s).
Proof.
  intros Hs Hid Hf Hpos. unfold update_shipment_status, bind.
  rewrite (read_shipment_available _ _ _ _ Hs Hid Hf).
  apply apply_status_available; assumption.
Qed.

Lemma ledger_applied (ship : ShipmentDoc) (status : string) (s : State) :
  ledger (applied ship status s) = ledger s ++ emitted ship status.
Proof. unfold applied. rewrite ledger_moved_all. reflexivity. Qed.

Lemma find_shipment_applied (oid : ObjectId) (ship : ShipmentDoc)
      (status : string) (s : State) :
  find_one (shipment_id_is oid) (db_shipment s) = Some ship ->
  find_one (shipment_id_is oid) (db_shipment (applied ship status s))
  = Some (set_status status ship).
Proof.
  intros Hf. unfold applied. rewrite db_shipment_moved_all.
  unfold status_written; simpl.
  destruct (find_one_Some _ _ _ Hf) as [_ Hid].
  unfold shipment_id_is in Hid. apply N.eqb_eq in Hid. rewrite Hid.
  rewrite find_one_update_one_same by (intros; assumption).
  rewrite Hf. reflexivity.
Qed.

(** ** What every handler preserves *)

Section Preservation.
Variable P : State -> Prop.
Hypothesis P_stable :
  forall s s', db_stock s' = db_stock s ->
               db_inventorymovement s' = db_inventorymovement s ->
               P s -> P s'.

Lemma preserves_ret {A} (a : A) : preserves P (ret a).
Proof. intros s H. exact H. Qed.

Lemma preserves_raise {A} (e : Exn) : preserves P (@raise A e).
Proof. intros s H. exact H. Qed.

Lemma preserves_bind {A B} (c : M A) (k : A -> M B) :
  preserves P c -> (forall a, preserves P (k a)) -> preserves P (bind c k).
Proof.
  intros Hc Hk s H. unfold bind. specialize (Hc s H).
  destruct (c s) as [[a|e] s1]; simpl in *; [apply Hk, Hc | exact Hc].
Qed.

Lemma preserves_for_each {A} (l : list A) (body : A -> M unit) :
  (forall x, preserves P (body x)) -> preserves P (for_each l body).
Proof.
  intros Hb. induction l as [|x r IH]; simpl.
  - apply preserves_ret.
  - apply preserves_bind; [apply Hb | intros _; exact IH].
Qed.

Lemma preserves_storage_call : preserves P storage_call.
Proof.
  intros s H. unfold storage_call.
  destruct (outages s) as [|[|] o]; simpl;
    [exact H | | ]; apply (P_stable s); auto.
Qed.

Lemma preserves_fresh_oid : preserves P fresh_oid.
Proof. intros s H. apply (P_stable s); auto. Qed.

Lemma preserves_validate_items (l : list MovementItem) :
  preserves P (validate_items l).
Proof.
  induction l as [|it r IH]; simpl; [apply preserves_ret|].
  apply preserves_bind.
  - unfold MovementItem_validate.
    destruct (gt0 _); [apply preserves_ret | apply preserves_raise].
  - intros a. apply preserves_bind; [exact IH|].
    intros b. apply preserves_ret.
Qed.

Lemma preserves_get_stock (w i : option string) (limit : Z) :
  preserves P (get_stock w i limit).
Proof.
  apply preserves_bind; [apply preserves_storage_call|].
  intros _ s H. exact H.
Qed.

Lemma preserves_post_shipments (body : ShipmentCreate) :
  preserves P (post_shipments body).
Proof.
  unfold post_shipments, ShipmentCreate_validate, create_shipment,
    shipment_insert_one.
  repeat (first [ apply preserves_bind; [|intros ?]
                | apply preserves_ret
                | apply preserves_validate_items
                | apply preserves_storage_call
                | apply preserves_fresh_oid ]).
  intros s H. apply (P_stable s); auto.
Qed.

Hypothesis P_inventory_move : forall mv, preserves P (inventory_move mv).

Lemma preserves_post_inventory_move (body : InventoryMovement) :
  preserves P (post_inventory_move body).
Proof.
  unfold post_inventory_move, InventoryMovement_validate.
  apply preserves_bind; [|exact P_inventory_move].
  destruct (gt0 _); [apply preserves_ret | apply preserves_raise].
Qed.

Lemma preserves_move_line (type w : string) (ship : ShipmentDoc)
      (it : MovementItem) :
  preserves P (move_line type w ship it).
Proof.
  unfold move_line, InventoryMovement_validate.
  apply preserves_bind.
  - destruct (gt0 _); [apply preserves_ret | apply preserves_raise].
  - intros mv. apply preserves_bind; [apply P_inventory_move|].
    intros _. apply preserves_ret.
Qed.

Lemma preserves_update_shipment_status (shipment_id : string)
      (body : ShipmentUpdateStatus) :
  preserves P (update_shipment_status shipment_id body).
Proof.
  unfold update_shipment_status, read_shipment, to_obj_id.
  apply preserves_bind.
  - apply preserves_bind.
    + destruct (ObjectId_of_string _); [apply preserves_ret | apply preserves_raise].
    + intros oid. apply preserves_bind.
      * unfold shipment_find_one.
        apply preserves_bind; [apply preserves_storage_call|].
        intros _ s H. exact H.
      * intros [d|]; [apply preserves_ret | apply preserves_raise].
  - intros ship. unfold apply_status, shipment_update_one.
    apply preserves_bind.
    + apply preserves_bind; [apply preserves_storage_call|].
      intros _ s H. apply (P_stable s); auto.
    + intros _. apply preserves_bind.
      * destruct (_ =? "picked");
          [apply preserves_for_each; intros; apply preserves_move_line
          | apply preserves_ret].
      * intros _. apply preserves_bind; [|intros _; apply preserves_ret].
        destruct (_ =? "delivered"); [|apply preserves_ret].
        destruct (sh_destination_warehouse_id ship) as [w|];
          [|apply preserves_ret].
        destruct (truthy (Some w)); [|apply preserves_ret].
        apply preserves_for_each; intros; apply preserves_move_line.
Qed.

Lemma preserves_serve (r : Request) (s : State) : P s -> P (serve r s).
Proof.
  destruct r; simpl; unfold after.
  - apply preserves_post_inventory_move.
  - apply preserves_get_stock.
  - apply preserves_post_shipments.
  - apply preserves_update_shipment_status.
Qed.
End Preservation.

Lemma stock_backed_stable (s s' : State) :
  db_stock s' = db_stock s ->
  db_inventorymovement s' = db_inventorymovement s ->
  stock_backed s -> stock_backed s'.
Proof.
  unfold stock_backed, ledger. intros -> ->. auto.
Qed.

Lemma stock_backed_inventory_move (mv : InventoryMovement) :
  preserves stock_backed (inventory_move mv).
Proof.
  intros s H.
  destruct (inventory_move_cases mv s) as [(_ & Hl & Hs)|[(_ & Hl & Hs)|(_ & Hm)]];
    unfold after in *.
  - exact (stock_backed_stable _ _ Hs Hl H).
  - intros d Hd. rewrite Hs in Hd. destruct (H d Hd) as (m & Hm & Hk).
    exists m. split; [|exact Hk]. unfold ledger. rewrite Hl.
    unfold insert_one. rewrite map_app. apply in_or_app. left. exact Hm.
  - rewrite Hm. intros d Hd. rewrite ledger_moved.
    assert (Hold : forall d0, In d0 (db_stock s) ->
              exists m, In m (ledger s ++ [mv])
                        /\ movement_on (st_warehouse_id d0) (st_item_id d0) m = true).
    { intros d0 Hd0. destruct (H d0 Hd0) as (m & Hin & Hk).
      exists m. split; [apply in_or_app; left; exact Hin | exact Hk]. }
    unfold moved in Hd; simpl in Hd.
    destruct (find_one _ (db_stock s)) eqn:F.
    + apply update_one_In in Hd. destruct Hd as [Hd|(d0 & Hd0 & ->)].
      * apply Hold, Hd.
      * apply (Hold d0 Hd0).
    + unfold insert_one in Hd. apply in_app_or in Hd. destruct Hd as [Hd|[<-|[]]].
      * apply Hold, Hd.
      * exists mv. split; [apply in_or_app; right; left; reflexivity|].
        unfold movement_on; simpl. rewrite !String.eqb_refl. reflexivity.
Qed.

Lemma reachable_stock_backed (s : State) : reachable s -> stock_backed s.
Proof.
  induction 1 as [o|r s _ IH].
  - intros d [].
  - apply (preserves_serve stock_backed stock_backed_stable
             stock_backed_inventory_move), IH.
Qed.

(** ** Binary64 facts *)

Lemma gt0_false (q : float) : (q <=? 0)%float = true -> gt0 q = false.
Proof.
  unfold gt0. rewrite ltb_spec, leb_spec.
  change (Prim2SF 0) with (S754_zero false).
  destruct (Prim2SF q) as [s|s| |s m e]; try destruct s; cbv;
    intros; try discriminate; reflexivity.
Qed.

Lemma sub_0_l (q : float) : gt0 q = true -> (0 - q)%float = (- q)%float.
Proof.
  unfold gt0. rewrite ltb_spec. intros H. apply Prim2SF_inj.
  rewrite sub_spec, opp_spec.
  change (Prim2SF 0) with (S754_zero false) in *.
  destruct (Prim2SF q) as [s|s| |s m e]; try destruct s;
    cbv in H; try discriminate; reflexivity.
Qed.



(** ** [POST /inventory/move] *)

Lemma post_inventory_move_Ok (body : InventoryMovement) (s s' : State)
      (r : MoveResponse) :
  post_inventory_move body s = (Ok r, s') ->
  gt0 (mv_quantity body) = true /\ r = move_response body s /\ s' = moved body s.
Proof.
  unfold post_inventory_move, InventoryMovement_validate, bind at 1.
  destruct (gt0 (mv_quantity body)); simpl; [|discriminate].
  intros H. split; [reflexivity|]. apply inventory_move_Ok, H.
Qed.

Lemma ledger_replay_invariant_empty (o : list bool) :
  ledger_replay_invariant (set_outages o empty_db).
Proof. intros w i. reflexivity. Qed.

Lemma stock_follows_ledger_empty (o : list bool) :
  stock_follows_ledger (set_outages o empty_db).
Proof. intros w i. reflexivity. Qed.




(** C4, as stated, fails on the status: a body whose quantity is 0 is
    rejected with a validation error, which the framework answers with
    HTTP 422, not 400. *)
Lemma nonpositive_quantity_answers_422 :
  (mv_quantity zero_in <=? 0)%float = true
  /\ outcome (post_inventory_move zero_in) empty_db = Raise ValidationError
  /\ response_status (outcome (post_inventory_move zero_in) empty_db) = 422%Z
  /\ response_status (outcome (post_inventory_move zero_in) empty_db) <> 400%Z.
Proof.
  vm_compute. repeat split; try reflexivity. discriminate.
Qed.

(** C4, amended: a request whose quantity is zero or negative is
    rejected by the validation of [InventoryMovement] ([gt=0]) before the
    handler runs: the call ends in a validation error, answered with HTTP
    422, and the state is the one it started from, so no movement is on
    record and no stock quantity has changed. *)
Theorem post_inventory_move_rejects_nonpositive
        (body : InventoryMovement) (s : State) :
  (mv_quantity body <=? 0)%float = true ->
  post_inventory_move body s = (Raise ValidationError, s)
  /\ response_status (outcome (post_inventory_move body) s) = 422%Z.
Proof.
  intros H.
  assert (Hrun : post_inventory_move body s = (Raise ValidationError, s)).
  { unfold post_inventory_move, InventoryMovement_validate, bind.
    rewrite (gt0_false _ H). reflexivity. }
  split; [exact Hrun|]. unfold outcome. rewrite Hrun. reflexivity.
Qed.

Lemma post_inventory_move_rejects_nonpositive_witness :
  (mv_quantity zero_in <=? 0)%float = true
  /\ post_inventory_move zero_in empty_db = (Raise ValidationError, empty_db)
  /\ response_status (outcome (post_inventory_move zero_in) empty_db) = 422%Z.
Proof.
  assert (H : (mv_quantity zero_in <=? 0)%float = true) by reflexivity.
  split; [exact H|].
  exact (post_inventory_move_rejects_nonpositive zero_in empty_db H).
Defined.

(** C5, on the code: a request of type "transfer", which is neither 'in'
    nor 'out', is not rejected.  It is answered with the new quantity, its
    movement is on record and the stock of its key has gone down by 5. *)
Theorem post_inventory_move_accepts_other_type :
  let s' := after (post_inventory_move transfer_5) empty_db in
  outcome (post_inventory_move transfer_5) empty_db
  = Ok (mkMoveResponse "000000000000000000000000" (0 - 5))
  /\ ledger s' = [transfer_5]
  /\ db_stock s' = [mkStockDoc 1%N "W1" "A" (Some (0 - 5)%float)]
  /\ stock_quantity empty_db "W1" "A" = 0%float
  /\ stock_quantity s' "W1" "A" = (-5)%float.
Proof.
  vm_compute. repeat split; reflexivity.
Qed.

(** C8: the movement is persisted before the stock is touched.  When the
    storage call that persists the movement fails, the call ends in
    [StorageError] with the movements and the stock as they were.  When
    that call succeeds and the read or the write of the stock fails, the
    call ends in [StorageError] with the movement on record and the stock
    as it was.  When the three calls succeed, the movement is on record
    and the stock document of the key carries the new quantity.  So under
    every failure schedule either the stock is as it was or the movement
    is on record. *)
Theorem inventory_move_persists_first (mv : InventoryMovement) (s : State) :
  let s' := after (inventory_move mv) s in
  let recorded :=
    insert_one (mkMovementDoc (next_oid s) mv) (db_inventorymovement s) in
  (hd false (outages s) = true ->
   outcome (inventory_move mv) s = Raise StorageError
   /\ db_inventorymovement s' = db_inventorymovement s
   /\ db_stock s' = db_stock s)
  /\ (fails_second s \/ fails_third s ->
      outcome (inventory_move mv) s = Raise StorageError
      /\ db_inventorymovement s' = recorded
      /\ db_stock s' = db_stock s)
  /\ (available s ->
      outcome (inventory_move mv) s = Ok (move_response mv s)
      /\ db_inventorymovement s' = recorded
      /\ exists d,
           find_one (stock_key (mv_warehouse_id mv) (mv_item_id mv))
                    (db_stock s') = Some d
           /\ st_quantity d = Some (new_quantity mv s))
  /\ (db_stock s' = db_stock s \/ db_inventorymovement s' = recorded).
Proof.
  cbv zeta. split; [|split; [|split]].
  - intros Hhd. destruct (outages s) as [|b o] eqn:E; simpl in Hhd;
      [discriminate|subst b].
    unfold after, outcome.
    rewrite (inventory_move_storage_failure mv s o E). repeat split.
  - intros Hfail. unfold outcome, after. run_handler.
    destruct Hfail as [[o E]|[o E]]; rewrite E; simpl.
    + repeat split.
    + destruct (find_one _ (db_stock s)); simpl; repeat split.
  - intros Hs. unfold outcome, after.
    rewrite (inventory_move_available mv s Hs). simpl.
    split; [reflexivity|]. split; [reflexivity|].
    apply find_moved_same.
  - destruct (inventory_move_cases mv s)
      as [(_ & _ & Hs)|[(_ & _ & Hs)|(_ & Hm)]].
    + left. exact Hs.
    + left. exact Hs.
    + right. unfold after in *. rewrite Hm. reflexivity.
Qed.

Lemma inventory_move_persists_first_witness :
  (hd false (outages (set_outages [true] empty_db)) = true
   /\ outcome (inventory_move in_10) (set_outages [true] empty_db)
      = Raise StorageError
   /\ db_inventorymovement
        (after (inventory_move in_10) (set_outages [true] empty_db)) = [])
  /\ ((fails_second (set_outages [false; true] empty_db)
       \/ fails_third (set_outages [false; true] empty_db))
      /\ outcome (inventory_move in_10) (set_outages [false; true] empty_db)
         = Raise StorageError
      /\ db_inventorymovement
           (after (inventory_move in_10) (set_outages [false; true] empty_db))
         = [mkMovementDoc 0%N in_10]
      /\ db_stock
           (after (inventory_move in_10) (set_outages [false; true] empty_db))
         = [])
  /\ (available empty_db
      /\ outcome (inventory_move in_10) empty_db
         = Ok (move_response in_10 empty_db)
      /\ db_inventorymovement (after (inventory_move in_10) empty_db)
         = [mkMovementDoc 0%N in_10]).
Proof.
  assert (H1 : hd false (outages (set_outages [true] empty_db)) = true)
    by reflexivity.
  assert (H2 : fails_second (set_outages [false; true] empty_db)
               \/ fails_third (set_outages [false; true] empty_db))
    by (left; exists []; reflexivity).
  assert (H3 : available empty_db) by reflexivity.
  split; [|split].
  - split; [exact H1|].
    destruct (inventory_move_persists_first in_10 (set_outages [true] empty_db))
      as (Hfirst & _).
    destruct (Hfirst H1) as (Ho & Hm & _). split; [exact Ho | exact Hm].
  - split; [exact H2|].
    destruct (inventory_move_persists_first
                in_10 (set_outages [false; true] empty_db))
      as (_ & Hlater & _).
    exact (Hlater H2).
  - split; [exact H3|].
    destruct (inventory_move_persists_first in_10 empty_db)
      as (_ & _ & Hok & _).
    destruct (Hok H3) as (Ho & Hm & _). split; [exact Ho | exact Hm].
Defined.

(** C10, as stated, fails when the subtraction rounds: with a stock of
    2^54, an 'out' of 1 is answered, and the stock stays 2^54 instead of
    going down by 1. *)
Lemma large_stock_is_not_decreased :
  exists s1 s2 r,
    post_moves [in_2p54] empty_db = Some s1
    /\ mv_type out_1 <> "in"
    /\ post_inventory_move out_1 s1 = (Ok r, s2)
    /\ stock_quantity s1 "W1" "A" = 0x1p54%float
    /\ stock_quantity s2 "W1" "A" = 0x1p54%float
    /\ ~ (exact (stock_quantity s2 "W1" "A")
          == exact (stock_quantity s1 "W1" "A") - exact (mv_quantity out_1))%Q.
Proof.
  do 3 eexists. split; [vm_compute; reflexivity|].
  split; [vm_compute; discriminate|].
  split; [vm_compute; reflexivity|].
  split; [vm_compute; reflexivity|]. split; [vm_compute; reflexivity|].
  vm_compute. discriminate.
Qed.

(** C10, amended: a request that is answered and whose type is not
    exactly "in" sets the stock of its key to the binary64 difference of
    the previous quantity and its quantity, which is the exact difference
    rounded and can leave a large stock unchanged; when the key has no
    stock document, one is inserted whose quantity is minus the
    quantity, exactly. *)
Theorem inventory_move_not_in_subtracts
        (body : InventoryMovement) (s s' : State) (r : MoveResponse) :
  mv_type body <> "in" ->
  post_inventory_move body s = (Ok r, s') ->
  let w := mv_warehouse_id body in
  let i := mv_item_id body in
  stock_quantity s' w i = (stock_quantity s w i - mv_quantity body)%float
  /\ resp_quantity r = (stock_quantity s w i - mv_quantity body)%float
  /\ (find_one (stock_key w i) (db_stock s) = None ->
      db_stock s'
      = insert_one (mkStockDoc (next_oid s + 1)%N w i
                               (Some (- mv_quantity body)%float))
                   (db_stock s)
      /\ stock_quantity s' w i = (- mv_quantity body)%float).
Proof.
  intros Hty Hcall w i.
  apply post_inventory_move_Ok in Hcall. destruct Hcall as (Hpos & -> & ->).
  apply String.eqb_neq in Hty.
  assert (Hnew : new_quantity body s
                 = (stock_quantity s w i - mv_quantity body)%float).
  { unfold new_quantity. rewrite Hty. reflexivity. }
  subst w i. rewrite stock_quantity_moved_same, Hnew.
  split; [reflexivity|]. split; [simpl; rewrite Hnew; reflexivity|].
  intros Hnone. unfold moved; simpl. rewrite Hnone, Hnew.
  unfold stock_quantity. rewrite Hnone. simpl.
  rewrite (sub_0_l _ Hpos). split; reflexivity.
Qed.

Lemma inventory_move_not_in_subtracts_witness :
  mv_type out_3 <> "in"
  /\ post_inventory_move out_3 stocked
     = (Ok (move_response out_3 stocked), moved out_3 stocked)
  /\ stock_quantity (moved out_3 stocked) "W1" "A"
     = (stock_quantity stocked "W1" "A" - 3)%float.
Proof.
  assert (H1 : mv_type out_3 <> "in") by (vm_compute; discriminate).
  assert (H2 : post_inventory_move out_3 stocked
               = (Ok (move_response out_3 stocked), moved out_3 stocked))
    by (vm_compute; reflexivity).
  split; [exact H1|]. split; [exact H2|].
  exact (proj1 (inventory_move_not_in_subtracts _ _ _ _ H1 H2)).
Defined.

(** ** [GET /inventory/stock] *)

Lemma get_stock_outcome (w i : option string) (limit : Z) (s : State) :
  hd false (outages s) = false ->
  outcome (get_stock w i limit) s
  = Ok (map stock_out
          (cursor_limit limit (filter (stock_filter w i) (db_stock s)))).
Proof.
  intros Hhd. unfold outcome, get_stock, bind, storage_call.
  destruct (outages s) as [|[|] o]; simpl in *;
    [reflexivity | discriminate | reflexivity].
Qed.

Lemma cursor_limit_In {A} (limit : Z) (l : list A) (x : A) :
  In x (cursor_limit limit l) -> In x l.
Proof.
  unfold cursor_limit. destruct (limit =? 0)%Z; [auto|].
  rewrite <- (firstn_skipn (Z.abs_nat limit) l) at 2.
  intros H. apply in_or_app. left. exact H.
Qed.

Lemma stock_filter_key (w i : string) (d : StockDoc) :
  stock_filter (Some w) (Some i) d = true ->
  (w = "" \/ st_warehouse_id d = w) /\ (i = "" \/ st_item_id d = i).
Proof.
  unfold stock_filter, truthy. rewrite andb_true_iff.
  destruct (w =? "") eqn:Hw; destruct (i =? "") eqn:Hi; simpl;
    rewrite ?String.eqb_eq in *; tauto.
Qed.

Lemma find_one_all_false {A} (p : A -> bool) (c : list A) :
  (forall d, In d c -> p d = false) -> find_one p c = None.
Proof.
  unfold find_one. induction c as [|x r IH]; simpl; intros H; [reflexivity|].
  rewrite (H x (or_introl eq_refl)). apply IH. intros d Hd. apply H. right.
  exact Hd.
Qed.

Lemma no_movement_no_stock (s : State) (w i : string) :
  stock_backed s -> no_movement s w i ->
  forall d, In d (db_stock s) -> stock_key w i d = false.
Proof.
  intros Hb Hno d Hd. destruct (stock_key w i d) eqn:Hk; [|reflexivity].
  unfold stock_key in Hk. apply andb_true_iff in Hk.
  rewrite !String.eqb_eq in Hk. destruct Hk as [Hw Hi].
  destruct (Hb d Hd) as (mv & Hin & Hon).
  rewrite Hw, Hi, (Hno mv Hin) in Hon. discriminate.
Qed.

(** C6, as stated, fails: on the empty store the pair (W1, A) has no
    movement, the query is answered, and the answer is the empty list; it
    has no entry for the pair, so it reports no quantity, 0 or other. *)
Lemma get_stock_reports_no_quantity :
  no_movement empty_db "W1" "A"
  /\ outcome (get_stock (Some "W1") (Some "A") 200) empty_db = Ok []
  /\ ~ reports_quantity
         (outcome (get_stock (Some "W1") (Some "A") 200) empty_db) "W1" "A" 0.
Proof.
  split; [intros mv []|]. split; [reflexivity|].
  intros (docs & d & q' & Hres & Hin & _).
  vm_compute in Hres. inversion Hres; subst. destruct Hin.
Qed.

(** C6, amended: in every reachable state, for a pair with no movement
    on record, the query for the pair is answered, not refused, whenever
    the store answers; the answer has no entry for the pair, and is the
    empty list when both ids are non-empty strings.  The quantity 0 is
    what [inventory_move] reads for such a pair. *)
Theorem get_stock_without_movements (s : State) (w i : string) (limit : Z) :
  reachable s ->
  hd false (outages s) = false ->
  no_movement s w i ->
  exists docs,
    outcome (get_stock (Some w) (Some i) limit) s = Ok docs
    /\ (forall d, In d docs -> ~ (so_warehouse_id d = w /\ so_item_id d = i))
    /\ (w <> "" -> i <> "" -> docs = [])
    /\ stock_quantity s w i = 0%float.
Proof.
  intros Hr Hhd Hno.
  pose proof (no_movement_no_stock s w i (reachable_stock_backed s Hr) Hno)
    as Hkey.
  eexists. split; [apply get_stock_outcome, Hhd|]. split; [|split].
  - intros d Hd [Hw Hi]. apply in_map_iff in Hd.
    destruct Hd as (d0 & <- & Hd0). apply cursor_limit_In in Hd0.
    apply filter_In in Hd0. destruct Hd0 as [Hd0 _].
    specialize (Hkey d0 Hd0). unfold stock_key in Hkey. simpl in Hw, Hi.
    rewrite Hw, Hi, !String.eqb_refl in Hkey. discriminate.
  - intros Hw Hi.
    assert (Hnil : filter (stock_filter (Some w) (Some i)) (db_stock s) = []).
    { destruct (filter _ _) as [|d r] eqn:F; [reflexivity|].
      assert (Hd : In d (filter (stock_filter (Some w) (Some i)) (db_stock s)))
        by (rewrite F; left; reflexivity).
      apply filter_In in Hd. destruct Hd as [Hd Hf].
      apply stock_filter_key in Hf. destruct Hf as [[Hf1|Hf1] [Hf2|Hf2]];
        try contradiction.
      specialize (Hkey d Hd). unfold stock_key in Hkey.
      rewrite Hf1, Hf2, !String.eqb_refl in Hkey. discriminate. }
    rewrite Hnil. unfold cursor_limit.
    destruct (limit =? 0)%Z; [reflexivity|]. rewrite firstn_nil. reflexivity.
  - unfold stock_quantity. rewrite (find_one_all_false _ _ Hkey). reflexivity.
Qed.

Lemma get_stock_without_movements_witness :
  reachable stocked
  /\ hd false (outages stocked) = false
  /\ no_movement stocked "W2" "A"
  /\ exists docs,
       outcome (get_stock (Some "W2") (Some "A") 200) stocked = Ok docs
       /\ (forall d, In d docs
                     -> ~ (so_warehouse_id d = "W2" /\ so_item_id d = "A"))
       /\ ("W2" <> "" -> "A" <> "" -> docs = [])
       /\ stock_quantity stocked "W2" "A" = 0%float.
Proof.
  assert (H1 : reachable stocked)
    by (apply reachable_serve; exact (reachable_start [])).
  assert (H2 : hd false (outages stocked) = false) by reflexivity.
  assert (H3 : no_movement stocked "W2" "A").
  { intros mv Hin. vm_compute in Hin. destruct Hin as [<-|[]]. reflexivity. }
  split; [exact H1|]. split; [exact H2|]. split; [exact H3|].
  exact (get_stock_without_movements stocked "W2" "A" 200 H1 H2 H3).
Defined.

(** ** [PATCH /shipments/{id}/status] *)

Lemma emitted_in_or_out (ship : ShipmentDoc) (status : string) :
  Forall in_or_out (emitted ship status).
Proof.
  unfold emitted. apply Forall_app. split.
  - destruct (status =? "picked"); [|constructor].
    rewrite Forall_map. apply Forall_forall. intros it _. right. reflexivity.
  - destruct (status =? "delivered"); [|constructor].
    destruct (sh_destination_warehouse_id ship) as [w|]; [|constructor].
    destruct (truthy (Some w)); [|constructor].
    rewrite Forall_map. apply Forall_forall. intros it _. left. reflexivity.
Qed.

Lemma stock_quantity_applied (ship : ShipmentDoc) (status : string)
      (s : State) (w i : string) :
  stock_quantity (applied ship status s) w i
  = replay_from (stock_quantity s w i) (emitted ship status) w i.
Proof.
  unfold applied. rewrite stock_quantity_moved_all by apply emitted_in_or_out.
  reflexivity.
Qed.

Lemma available_applied (ship : ShipmentDoc) (status : string) (s : State) :
  available s -> available (applied ship status s).
Proof. intros H. unfold applied. apply available_moved_all. exact H. Qed.

(** What a status request does when the store answers: it is accepted
    whatever the shipment's status, the requested status is written, and
    the movements of [emitted] are recorded and applied to the stock. *)
Lemma update_shipment_status_effect (shipment_id : string) (oid : ObjectId)
      (ship : ShipmentDoc) (body : ShipmentUpdateStatus) (s : State) :
  available s ->
  ObjectId_of_string shipment_id = Some oid ->
  find_one (shipment_id_is oid) (db_shipment s) = Some ship ->
  lines_positive ship ->
  let status := body_status body in
  let s' := after (update_shipment_status shipment_id body) s in
  outcome (update_shipment_status shipment_id body) s = Ok status
  /\ available s'
  /\ find_one (shipment_id_is oid) (db_shipment s') = Some (set_status status ship)
  /\ ledger s' = ledger s ++ emitted ship status
  /\ forall w i, stock_quantity s' w i
                 = replay_from (stock_quantity s w i) (emitted ship status)
                               w i.
Proof.
  intros Hs Hid Hf Hpos. cbv zeta. unfold outcome, after.
  rewrite (update_shipment_status_available _ _ _ _ _ Hs Hid Hf
             (lines_positive_emitted _ _ Hpos)); simpl.
  split; [reflexivity|]. split; [apply available_applied, Hs|].
  split; [apply find_shipment_applied, Hf|].
  split; [apply ledger_applied|]. intros w i. apply stock_quantity_applied.
Qed.

(** C2, as stated, fails.  With SHP-1 in status 'picked', requesting
    'picked' again is not an allowed pair of the table, yet the request is
    answered, a second out-movement is recorded and the stock of (W1, A)
    goes from 5 to 0; and requesting 'created', not allowed either, is
    answered and overwrites the stored status. *)
Lemma repeated_picked_is_accepted :
  stored_status picked 2%N = Some "picked"
  /\ allowed_transition "picked" "picked" = false
  /\ outcome (update_shipment_status shp1_id (status_body "picked")) picked
     = Ok "picked"
  /\ ledger (after (update_shipment_status shp1_id (status_body "picked")) picked)
     = ledger picked
       ++ [mkInventoryMovement "out" "W1" "A" 5 (Some "SHP-1") None None]
  /\ stock_quantity picked "W1" "A" = 5%float
  /\ stock_quantity
       (after (update_shipment_status shp1_id (status_body "picked")) picked)
       "W1" "A" = 0%float
  /\ allowed_transition "picked" "created" = false
  /\ outcome (update_shipment_status shp1_id (status_body "created")) picked
     = Ok "created"
  /\ stored_status
       (after (update_shipment_status shp1_id (status_body "created")) picked)
       2%N = Some "created".
Proof.
  vm_compute. repeat split; reflexivity.
Qed.

(** C2, amended: for every shipment and every requested status, allowed
    by the table or not and also when it is the status the shipment
    already has, the request is answered when the id is well formed, the
    shipment exists and the store answers; the stored status becomes the
    requested one; and the movements depend on the requested status alone:
    one out-movement per line for 'picked', each time it is requested, one
    in-movement per line for 'delivered' when the destination warehouse is
    set, none otherwise.  The stock of every key is its previous quantity
    with these movements applied one after the other, in binary64. *)
Theorem update_shipment_status_any_transition
        (shipment_id : string) (oid : ObjectId) (ship : ShipmentDoc)
        (body : ShipmentUpdateStatus) (s : State) :
  available s ->
  ObjectId_of_string shipment_id = Some oid ->
  find_one (shipment_id_is oid) (db_shipment s) = Some ship ->
  lines_positive ship ->
  let status := body_status body in
  let s' := after (update_shipment_status shipment_id body) s in
  outcome (update_shipment_status shipment_id body) s = Ok status
  /\ stored_status s' oid = Some status
  /\ ledger s' = ledger s ++ emitted ship status
  /\ forall w i, stock_quantity s' w i
                 = replay_from (stock_quantity s w i) (emitted ship status)
                               w i.
Proof.
  intros Hs Hid Hf Hpos.
  destruct (update_shipment_status_effect _ _ _ body _ Hs Hid Hf Hpos)
    as (Ho & _ & Hst & Hl & Hq).
  cbv zeta. split; [exact Ho|]. split; [|split; [exact Hl | exact Hq]].
  unfold stored_status. rewrite Hst. reflexivity.
Qed.

Lemma update_shipment_status_any_transition_witness :
  available picked
  /\ ObjectId_of_string shp1_id = Some 2%N
  /\ find_one (shipment_id_is 2%N) (db_shipment picked) = Some shp1_picked
  /\ lines_positive shp1_picked
  /\ outcome (update_shipment_status shp1_id (status_body "picked")) picked
     = Ok "picked"
  /\ ledger (after (update_shipment_status shp1_id (status_body "picked")) picked)
     = ledger picked ++ emitted shp1_picked "picked".
Proof.
  assert (H1 : available picked) by reflexivity.
  assert (H2 : ObjectId_of_string shp1_id = Some 2%N) by reflexivity.
  assert (H3 : find_one (shipment_id_is 2%N) (db_shipment picked)
               = Some shp1_picked) by reflexivity.
  assert (H4 : lines_positive shp1_picked)
    by (apply Forall_cons; [reflexivity | apply Forall_nil]).
  split; [exact H1|]. split; [exact H2|]. split; [exact H3|].
  split; [exact H4|].
  destruct (update_shipment_status_any_transition
              shp1_id 2%N shp1_picked (status_body "picked") picked
              H1 H2 H3 H4) as (Ho & _ & Hl & _).
  split; [exact Ho | exact Hl].
Defined.

(** C3: the scenario of the spec, and its general form.  From
    stock(W1,A)=10 and stock(W2,A)=0, 'picked' makes stock(W1,A)=5,
    'in_transit' leaves the stock documents as they are, and 'delivered'
    makes stock(W2,A)=5 with stock(W1,A) still 5.  In general 'picked'
    records one out-movement per line against the origin warehouse, and
    'delivered' one in-movement per line against the destination
    warehouse when there is one. *)
Theorem shipment_moves_stock :
  (stock_quantity created "W1" "A" = 10%float
   /\ stock_quantity created "W2" "A" = 0%float
   /\ stock_quantity picked "W1" "A" = 5%float
   /\ stock_quantity picked "W2" "A" = 0%float
   /\ db_stock in_transit = db_stock picked
   /\ ledger in_transit = ledger picked
   /\ stock_quantity delivered "W2" "A" = 5%float
   /\ stock_quantity delivered "W1" "A" = 5%float)
  /\ (forall shipment_id oid ship s,
        available s ->
        ObjectId_of_string shipment_id = Some oid ->
        find_one (shipment_id_is oid) (db_shipment s) = Some ship ->
        lines_positive ship ->
        ledger (after (update_shipment_status shipment_id (status_body "picked")) s)
        = ledger s
          ++ map (line_movement "out" (sh_origin_warehouse_id ship) ship)
                 (sh_items ship))
  /\ (forall shipment_id oid ship s w,
        available s ->
        ObjectId_of_string shipment_id = Some oid ->
        find_one (shipment_id_is oid) (db_shipment s) = Some ship ->
        lines_positive ship ->
        sh_destination_warehouse_id ship = Some w ->
        w <> "" ->
        ledger (after (update_shipment_status shipment_id (status_body "delivered")) s)
        = ledger s ++ map (line_movement "in" w ship) (sh_items ship)).
Proof.
  split; [vm_compute; repeat split; reflexivity|]. split.
  - intros shipment_id oid ship s Hs Hid Hf Hpos.
    destruct (update_shipment_status_effect _ _ _ (status_body "picked") _
                Hs Hid Hf Hpos) as (_ & _ & _ & Hl & _).
    rewrite Hl. unfold emitted; simpl. rewrite app_nil_r. reflexivity.
  - intros shipment_id oid ship s w Hs Hid Hf Hpos Hdest Hw.
    destruct (update_shipment_status_effect _ _ _ (status_body "delivered") _
                Hs Hid Hf Hpos) as (_ & _ & _ & Hl & _).
    rewrite Hl. unfold emitted; simpl. rewrite Hdest.
    apply String.eqb_neq in Hw. rewrite Hw. reflexivity.
Qed.

Lemma shipment_moves_stock_witness :
  available created
  /\ ObjectId_of_string shp1_id = Some 2%N
  /\ find_one (shipment_id_is 2%N) (db_shipment created) = Some shp1_created
  /\ lines_positive shp1_created
  /\ ledger (after (update_shipment_status shp1_id (status_body "picked")) created)
     = ledger created
       ++ map (line_movement "out" (sh_origin_warehouse_id shp1_created)
                             shp1_created)
              (sh_items shp1_created).
Proof.
  assert (H1 : available created) by reflexivity.
  assert (H2 : ObjectId_of_string shp1_id = Some 2%N) by reflexivity.
  assert (H3 : find_one (shipment_id_is 2%N) (db_shipment created)
               = Some shp1_created) by reflexivity.
  assert (H4 : lines_positive shp1_created)
    by (apply Forall_cons; [reflexivity | apply Forall_nil]).
  split; [exact H1|]. split; [exact H2|]. split; [exact H3|].
  split; [exact H4|].
  exact (proj1 (proj2 shipment_moves_stock)
               shp1_id 2%N shp1_created created H1 H2 H3 H4).
Defined.

(** C7: for a shipment without a destination warehouse, 'delivered'
    records no movement and leaves every stock document as it was; and
    over the shipment's life, 'picked' then 'in_transit' then 'delivered',
    the movements recorded are the out-movements of 'picked' and no
    other. *)
Theorem delivered_external_records_nothing
        (shipment_id : string) (oid : ObjectId) (ship : ShipmentDoc)
        (s : State) :
  available s ->
  ObjectId_of_string shipment_id = Some oid ->
  find_one (shipment_id_is oid) (db_shipment s) = Some ship ->
  lines_positive ship ->
  sh_destination_warehouse_id ship = None ->
  let update status := update_shipment_status shipment_id (status_body status) in
  (outcome (update "delivered") s = Ok "delivered"
   /\ db_inventorymovement (after (update "delivered") s) = db_inventorymovement s
   /\ db_stock (after (update "delivered") s) = db_stock s)
  /\ ledger (after (update "delivered")
               (after (update "in_transit") (after (update "picked") s)))
     = ledger s
       ++ map (line_movement "out" (sh_origin_warehouse_id ship) ship)
              (sh_items ship).
Proof.
  intros Hs Hid Hf Hpos Hdest. cbv zeta. split.
  - unfold outcome, after.
    rewrite (update_shipment_status_available _ _ _ (status_body "delivered") _
               Hs Hid Hf (lines_positive_emitted _ _ Hpos)); simpl.
    unfold applied, emitted; simpl. rewrite Hdest. simpl.
    repeat split; reflexivity.
  - destruct (update_shipment_status_effect _ _ _ (status_body "picked") _
                Hs Hid Hf Hpos) as (_ & Hs1 & Hf1 & Hl1 & _).
    set (s1 := after (update_shipment_status shipment_id (status_body "picked")) s)
      in *.
    destruct (update_shipment_status_effect _ _ _ (status_body "in_transit") _
                Hs1 Hid Hf1 Hpos) as (_ & Hs2 & Hf2 & Hl2 & _).
    set (s2 := after (update_shipment_status shipment_id
                                             (status_body "in_transit")) s1) in *.
    destruct (update_shipment_status_effect _ _ _ (status_body "delivered") _
                Hs2 Hid Hf2 Hpos) as (_ & _ & _ & Hl3 & _).
    rewrite Hl3, Hl2, Hl1. unfold emitted; simpl. rewrite Hdest.
    rewrite !app_nil_r. reflexivity.
Qed.

Lemma delivered_external_records_nothing_witness :
  available created_external
  /\ ObjectId_of_string shp1_id = Some 2%N
  /\ find_one (shipment_id_is 2%N) (db_shipment created_external)
     = Some shp2_created
  /\ lines_positive shp2_created
  /\ sh_destination_warehouse_id shp2_created = None
  /\ ledger (after (update_shipment_status shp1_id (status_body "delivered"))
               (after (update_shipment_status shp1_id (status_body "in_transit"))
                  (after (update_shipment_status shp1_id (status_body "picked"))
                     created_external)))
     = ledger created_external
       ++ map (line_movement "out" (sh_origin_warehouse_id shp2_created)
                             shp2_created)
              (sh_items shp2_created).
Proof.
  assert (H1 : available created_external) by reflexivity.
  assert (H2 : ObjectId_of_string shp1_id = Some 2%N) by reflexivity.
  assert (H3 : find_one (shipment_id_is 2%N) (db_shipment created_external)
               = Some shp2_created) by reflexivity.
  assert (H4 : lines_positive shp2_created)
    by (apply Forall_cons; [reflexivity | apply Forall_nil]).
  assert (H5 : sh_destination_warehouse_id shp2_created = None) by reflexivity.
  split; [exact H1|]. split; [exact H2|]. split; [exact H3|].
  split; [exact H4|]. split; [exact H5|].
  exact (proj2 (delivered_external_records_nothing
                  shp1_id 2%N shp2_created created_external H1 H2 H3 H4 H5)).
Defined.

(** ** Two callers on one shipment *)

(** C9, as stated, fails.  Both callers read SHP-1 in status 'created'
    (a read leaves the state as it is), then each writes 'picked': both
    calls are answered, the second although the stored status is 'picked'
    by then, two out-movements are on record and the stock of (W1, A) has
    gone from 10 to 0. *)
Lemma concurrent_picked_deducts_twice :
  let body := status_body "picked" in
  let sa := after (apply_status shp1_created body) created in
  let sb := after (apply_status shp1_created body) sa in
  read_shipment shp1_id created = (Ok shp1_created, created)
  /\ sh_status shp1_created = "created"
  /\ outcome (apply_status shp1_created body) created = Ok "picked"
  /\ stored_status sa 2%N = Some "picked"
  /\ outcome (apply_status shp1_created body) sa = Ok "picked"
  /\ ~ exactly_one_succeeds (outcome (apply_status shp1_created body) created)
                            (outcome (apply_status shp1_created body) sa)
  /\ ledger sb
     = ledger created
       ++ [mkInventoryMovement "out" "W1" "A" 5 (Some "SHP-1") None None;
           mkInventoryMovement "out" "W1" "A" 5 (Some "SHP-1") None None]
  /\ stock_quantity created "W1" "A" = 10%float
  /\ stock_quantity sb "W1" "A" = 0%float.
Proof.
  vm_compute. repeat split; try reflexivity. discriminate.
Qed.

(** C9, amended: when two callers both read the same shipment and both
    request 'picked', and the two writes run one after the other, both
    calls are answered: the status is written without comparing it with
    the status that was read, so the second write goes through although
    the stored status is 'picked' by then; no call ends in an error, and
    two sets of out-movements are recorded and both are applied to the
    stock, one after the other, so that the stock is deducted twice. *)
Theorem concurrent_picked_both_succeed
        (shipment_id : string) (oid : ObjectId) (ship : ShipmentDoc)
        (s : State) :
  available s ->
  ObjectId_of_string shipment_id = Some oid ->
  find_one (shipment_id_is oid) (db_shipment s) = Some ship ->
  lines_positive ship ->
  let body := status_body "picked" in
  let outs := map (line_movement "out" (sh_origin_warehouse_id ship) ship)
                  (sh_items ship) in
  let sa := after (apply_status ship body) s in
  let sb := after (apply_status ship body) sa in
  read_shipment shipment_id s = (Ok ship, s)
  /\ outcome (apply_status ship body) s = Ok "picked"
  /\ stored_status sa oid = Some "picked"
  /\ outcome (apply_status ship body) sa = Ok "picked"
  /\ ledger sb = ledger s ++ outs ++ outs
  /\ forall w i, stock_quantity sb w i
                 = replay_from (stock_quantity s w i) (outs ++ outs) w i.
Proof.
  intros Hs Hid Hf Hpos. cbv zeta.
  pose proof (lines_positive_emitted ship "picked" Hpos) as Hem.
  assert (Ha : apply_status ship (status_body "picked") s
               = (Ok "picked", applied ship "picked" s))
    by (apply (apply_status_available ship (status_body "picked") s Hs Hem)).
  assert (Hsa : available (applied ship "picked" s))
    by (apply available_applied, Hs).
  assert (Hb : apply_status ship (status_body "picked") (applied ship "picked" s)
               = (Ok "picked", applied ship "picked" (applied ship "picked" s)))
    by (apply (apply_status_available ship (status_body "picked") _ Hsa Hem)).
  assert (Hout : emitted ship "picked"
                 = map (line_movement "out" (sh_origin_warehouse_id ship) ship)
                       (sh_items ship))
    by (unfold emitted; simpl; apply app_nil_r).
  split; [apply (read_shipment_available _ _ _ _ Hs Hid Hf)|].
  unfold outcome, after. rewrite Ha; simpl. rewrite Hb; simpl.
  split; [reflexivity|]. split.
  { unfold stored_status. rewrite (find_shipment_applied _ _ _ _ Hf).
    reflexivity. }
  split; [reflexivity|]. split.
  - rewrite !ledger_applied, Hout, <- app_assoc. reflexivity.
  - intros w i. rewrite !stock_quantity_applied, Hout, replay_from_app.
    reflexivity.
Qed.

Lemma concurrent_picked_both_succeed_witness :
  available created
  /\ ObjectId_of_string shp1_id = Some 2%N
  /\ find_one (shipment_id_is 2%N) (db_shipment created) = Some shp1_created
  /\ lines_positive shp1_created
  /\ read_shipment shp1_id created = (Ok shp1_created, created)
  /\ outcome (apply_status shp1_created (status_body "picked")) created
     = Ok "picked".
Proof.
  assert (H1 : available created) by reflexivity.
  assert (H2 : ObjectId_of_string shp1_id = Some 2%N) by reflexivity.
  assert (H3 : find_one (shipment_id_is 2%N) (db_shipment created)
               = Some shp1_created) by reflexivity.
  assert (H4 : lines_positive shp1_created)
    by (apply Forall_cons; [reflexivity | apply Forall_nil]).
  split; [exact H1|]. split; [exact H2|]. split; [exact H3|].
  split; [exact H4|].
  destruct (concurrent_picked_both_succeed
              shp1_id 2%N shp1_created created H1 H2 H3 H4)
    as (Hr & Ho & _).
  split; [exact Hr | exact Ho].
Defined.

(** * Further properties of the handlers *)

(** ** [inventory_move]: answer, frame and composition *)

(** X1: the quantity a successful POST /inventory/move answers with is
    the quantity the store then holds for the key; for type 'in' it is the
    binary64 sum of the previous quantity and the movement's. *)
Theorem inventory_move_answer_is_stock
        (body : InventoryMovement) (s s' : State) (r : MoveResponse) :
  post_inventory_move body s = (Ok r, s') ->
  resp_quantity r
  = stock_quantity s' (mv_warehouse_id body) (mv_item_id body)
  /\ (mv_type body = "in" ->
      resp_quantity r
      = (stock_quantity s (mv_warehouse_id body) (mv_item_id body)
         + mv_quantity body)%float).
Proof.
  intros Hcall. apply post_inventory_move_Ok in Hcall.
  destruct Hcall as (_ & -> & ->).
  rewrite stock_quantity_moved_same. split; [reflexivity|].
  intros Hin. simpl. unfold new_quantity. rewrite Hin. reflexivity.
Qed.

Lemma inventory_move_answer_is_stock_witness :
  post_inventory_move in_1 (moved in_2p53 empty_db)
  = (Ok (move_response in_1 (moved in_2p53 empty_db)),
     moved in_1 (moved in_2p53 empty_db))
  /\ mv_type in_1 = "in"
  /\ resp_quantity (move_response in_1 (moved in_2p53 empty_db))
     = stock_quantity (moved in_1 (moved in_2p53 empty_db)) "W1" "A"
  /\ resp_quantity (move_response in_1 (moved in_2p53 empty_db))
     = (stock_quantity (moved in_2p53 empty_db) "W1" "A" + 1)%float.
Proof.
  assert (H : post_inventory_move in_1 (moved in_2p53 empty_db)
              = (Ok (move_response in_1 (moved in_2p53 empty_db)),
                 moved in_1 (moved in_2p53 empty_db)))
    by (vm_compute; reflexivity).
  assert (Hin : mv_type in_1 = "in") by reflexivity.
  split; [exact H|]. split; [exact Hin|].
  destruct (inventory_move_answer_is_stock _ _ _ _ H) as [Ha Hb].
  split; [exact Ha | exact (Hb Hin)].
Defined.

(** X2: a successful POST /inventory/move changes one key only: the
    stock document of every other (warehouse, item) pair is the one it
    was, and no shipment is touched. *)
Theorem inventory_move_frame
        (body : InventoryMovement) (s s' : State) (r : MoveResponse) :
  post_inventory_move body s = (Ok r, s') ->
  (forall w i, movement_on w i body = false ->
               find_one (stock_key w i) (db_stock s')
               = find_one (stock_key w i) (db_stock s))
  /\ db_shipment s' = db_shipment s.
Proof.
  intros Hcall. apply post_inventory_move_Ok in Hcall.
  destruct Hcall as (_ & _ & ->). split; [|reflexivity].
  intros w i Hne. apply find_moved_other, Hne.
Qed.

Lemma inventory_move_frame_witness :
  post_inventory_move out_3 stocked
  = (Ok (move_response out_3 stocked), moved out_3 stocked)
  /\ db_shipment (moved out_3 stocked) = db_shipment stocked.
Proof.
  assert (H : post_inventory_move out_3 stocked
              = (Ok (move_response out_3 stocked), moved out_3 stocked))
    by reflexivity.
  split; [exact H|].
  exact (proj2 (inventory_move_frame _ _ _ _ H)).
Defined.

Lemma inventory_move_in_two_steps (mv : InventoryMovement) (s : State) :
  inventory_move mv s = (read <- move_read mv ;; move_write mv read) s.
Proof.
  unfold inventory_move, move_read, move_write.
  set (persist := create_document mv).
  set (read := stock_find_one (mv_warehouse_id mv) (mv_item_id mv)).
  set (update := stock_update_one (mv_warehouse_id mv) (mv_item_id mv)).
  set (insert := stock_insert_one (mv_warehouse_id mv) (mv_item_id mv)).
  unfold bind, ret.
  destruct (persist s) as [[id|e] s1]; [|reflexivity].
  destruct (read s1) as [[[d|]|e] s2]; reflexivity.
Qed.

Lemma filter_none {A} (p : A -> bool) (c : list A) :
  find_one p c = None -> filter p c = [].
Proof.
  unfold find_one. induction c as [|x r IH]; simpl; [reflexivity|].
  destruct (p x); [discriminate | exact IH].
Qed.

Lemma find_one_app_none {A} (p : A -> bool) (c l : list A) :
  find_one p c = None -> find_one p (c ++ l) = find_one p l.
Proof.
  unfold find_one. induction c as [|x r IH]; simpl; [reflexivity|].
  destruct (p x); [discriminate | exact IH].
Qed.

(** X3: the stock of a key is read and then written in two storage
    calls, with nothing between them to exclude another call.  When two
    movements on a key without stock document overlap, each reading
    before either writes, both are answered, both movements are on record,
    and the key is left with two stock documents, each computed from 0;
    the quantity read for the key from then on is that of the first
    document, which the second movement has not changed. *)
Theorem overlapping_moves_leave_two_documents
        (mva mvb : InventoryMovement) (s : State) :
  available s ->
  mv_warehouse_id mvb = mv_warehouse_id mva ->
  mv_item_id mvb = mv_item_id mva ->
  find_one (stock_key (mv_warehouse_id mva) (mv_item_id mva)) (db_stock s)
  = None ->
  let w := mv_warehouse_id mva in
  let i := mv_item_id mva in
  let n := next_oid s in
  let doc_a := mkStockDoc (n + 1 + 1)%N w i (Some (new_quantity mva s)) in
  let doc_b := mkStockDoc (n + 1 + 1 + 1)%N w i (Some (new_quantity mvb s)) in
  exists ra rb a b s1 s2 s3 s4,
    move_read mva s = (Ok ra, s1)
    /\ move_read mvb s1 = (Ok rb, s2)
    /\ move_write mva ra s2 = (Ok a, s3)
    /\ move_write mvb rb s3 = (Ok b, s4)
    /\ ledger s4 = ledger s ++ [mva; mvb]
    /\ filter (stock_key w i) (db_stock s4) = [doc_a; doc_b]
    /\ stock_quantity s4 w i = new_quantity mva s.
Proof.
  intros Hs Hw Hi Hnone. cbv zeta. unfold available in Hs.
  assert (Hnone' : find_one (stock_key (mv_warehouse_id mvb) (mv_item_id mvb))
                            (db_stock s) = None)
    by (rewrite Hw, Hi; exact Hnone).
  do 8 eexists.
  split; [unfold move_read, create_document, stock_find_one, storage_call,
            fresh_oid, bind, ret; simpl; rewrite Hs; simpl; rewrite Hs;
          reflexivity|].
  split; [unfold move_read, create_document, stock_find_one, storage_call,
            fresh_oid, bind, ret; simpl; rewrite Hs; simpl; rewrite Hs;
          reflexivity|].
  split; [unfold move_write, stock_insert_one, storage_call, fresh_oid, bind,
            ret; simpl; rewrite Hnone; simpl; rewrite Hs; reflexivity|].
  split; [unfold move_write, stock_insert_one, storage_call, fresh_oid, bind,
            ret; simpl; rewrite Hnone'; simpl; rewrite Hs; reflexivity|].
  unfold new_quantity, stock_quantity. rewrite Hw, Hi, Hnone.
  split; [|split].
  - unfold ledger, insert_one; simpl. rewrite !map_app, <- app_assoc.
    reflexivity.
  - simpl. unfold insert_one. rewrite <- app_assoc, filter_app, filter_none
      by exact Hnone.
    simpl. unfold stock_key; simpl. rewrite !String.eqb_refl. reflexivity.
  - simpl. unfold insert_one. rewrite <- app_assoc.
    rewrite find_one_app_none by exact Hnone.
    simpl. unfold stock_key; simpl. rewrite !String.eqb_refl. reflexivity.
Qed.

Lemma overlapping_moves_leave_two_documents_witness :
  available stocked
  /\ find_one (stock_key "W2" "B") (db_stock stocked) = None
  /\ exists ra rb a b s1 s2 s3 s4,
       move_read in_7_b stocked = (Ok ra, s1)
       /\ move_read out_4_b s1 = (Ok rb, s2)
       /\ move_write in_7_b ra s2 = (Ok a, s3)
       /\ move_write out_4_b rb s3 = (Ok b, s4)
       /\ ledger s4 = ledger stocked ++ [in_7_b; out_4_b]
       /\ filter (stock_key "W2" "B") (db_stock s4)
          = [mkStockDoc 4%N "W2" "B" (Some 7%float);
             mkStockDoc 5%N "W2" "B" (Some (-4)%float)]
       /\ stock_quantity s4 "W2" "B" = 7%float.
Proof.
  assert (H1 : available stocked) by reflexivity.
  assert (H2 : find_one (stock_key "W2" "B") (db_stock stocked) = None)
    by reflexivity.
  split; [exact H1|]. split; [exact H2|].
  exact (overlapping_moves_leave_two_documents
           in_7_b out_4_b stocked H1 eq_refl eq_refl H2).
Defined.

(** ** [inventory_move]: a failure after the movement is on record *)




(** ** One stock document per key *)

Lemma stock_keys_update_one (p : StockDoc -> bool) (qty : float)
      (c : list StockDoc) :
  map stock_key_of (update_one p (set_quantity qty) c) = map stock_key_of c.
Proof.
  induction c as [|d r IH]; simpl; [reflexivity|].
  destruct (p d); simpl; [reflexivity | rewrite IH; reflexivity].
Qed.

Lemma stock_key_of_true (w i : string) (d : StockDoc) :
  stock_key w i d = true <-> stock_key_of d = (w, i).
Proof.
  unfold stock_key, stock_key_of. rewrite andb_true_iff, !String.eqb_eq.
  split; [intros [-> ->]; reflexivity | intros H; inversion H; auto].
Qed.

Lemma find_one_None_key (w i : string) (c : list StockDoc) :
  find_one (stock_key w i) c = None -> ~ In (w, i) (map stock_key_of c).
Proof.
  intros F Hin. apply in_map_iff in Hin. destruct Hin as (d & Hk & Hd).
  apply stock_key_of_true in Hk.
  rewrite (find_one_None _ _ F d Hd) in Hk. discriminate.
Qed.

Lemma stock_keys_unique_stable (s s' : State) :
  db_stock s' = db_stock s ->
  db_inventorymovement s' = db_inventorymovement s ->
  stock_keys_unique s -> stock_keys_unique s'.
Proof. unfold stock_keys_unique. intros -> _. auto. Qed.

Lemma stock_keys_unique_inventory_move (mv : InventoryMovement) :
  preserves stock_keys_unique (inventory_move mv).
Proof.
  intros s H.
  destruct (inventory_move_cases mv s)
    as [(_ & Hl & Hs)|[(_ & Hl & Hs)|(_ & Hm)]]; unfold after in *.
  - unfold stock_keys_unique. rewrite Hs. exact H.
  - unfold stock_keys_unique. rewrite Hs. exact H.
  - rewrite Hm. unfold stock_keys_unique, moved; simpl.
    destruct (find_one _ (db_stock s)) eqn:F.
    + rewrite stock_keys_update_one. exact H.
    + unfold insert_one. rewrite map_app. simpl.
      apply NoDup_rev in H. rewrite <- (rev_involutive (_ ++ _)).
      apply NoDup_rev. rewrite rev_app_distr. simpl. constructor; [|exact H].
      rewrite <- in_rev. apply find_one_None_key, F.
Qed.

Lemma stock_keys_unique_reachable (s : State) :
  reachable s -> stock_keys_unique s.
Proof.
  induction 1 as [o|r s _ IH].
  - constructor.
  - apply (preserves_serve stock_keys_unique stock_keys_unique_stable
             stock_keys_unique_inventory_move), IH.
Qed.

(** ** [get_stock] after [inventory_move] *)

Lemma filter_unique_key (w i : string) (c : list StockDoc) (d : StockDoc) :
  NoDup (map stock_key_of c) ->
  find_one (stock_key w i) c = Some d ->
  filter (stock_key w i) c = [d].
Proof.
  unfold find_one. induction c as [|x r IH]; simpl; intros Hnd F;
    [discriminate|].
  inversion Hnd as [|? ? Hx Hr]; subst.
  destruct (stock_key w i x) eqn:Hk.
  - inversion F; subst. f_equal.
    destruct (filter (stock_key w i) r) as [|y t] eqn:Fy; [reflexivity|].
    exfalso. apply Hx.
    assert (Hy : In y (filter (stock_key w i) r)) by (rewrite Fy; left; auto).
    apply filter_In in Hy. destruct Hy as [Hy Hky].
    apply stock_key_of_true in Hk, Hky. rewrite Hk, <- Hky.
    apply in_map, Hy.
  - apply IH; assumption.
Qed.

Lemma stock_filter_nonempty (w i : string) (d : StockDoc) :
  w <> "" -> i <> "" ->
  stock_filter (Some w) (Some i) d = stock_key w i d.
Proof.
  intros Hw Hi. unfold stock_filter, truthy, stock_key.
  apply String.eqb_neq in Hw, Hi. rewrite Hw, Hi. reflexivity.
Qed.

Lemma cursor_limit_single {A} (limit : Z) (x : A) :
  cursor_limit limit [x] = [x].
Proof.
  unfold cursor_limit. destruct (limit =? 0)%Z eqn:E; [reflexivity|].
  apply Z.eqb_neq in E. destruct (Z.abs_nat limit) eqn:Ha;
    [|simpl; rewrite firstn_nil; reflexivity].
  exfalso. apply E. lia.
Qed.

(** X5: as long as requests are served one at a time, each to its end
    before the next begins, which is what [reachable] describes, the stock
    collection holds at most one document for a (warehouse, item) pair,
    and that document is the one [inventory_move] reads.  Calls that
    overlap break this, as the statement on two overlapping movements
    shows. *)
Theorem one_stock_document_per_key (s : State) (w i : string) :
  reachable s ->
  filter (stock_key w i) (db_stock s)
  = match find_one (stock_key w i) (db_stock s) with
    | Some d => [d]
    | None => []
    end.
Proof.
  intros Hr. apply stock_keys_unique_reachable in Hr.
  destruct (find_one (stock_key w i) (db_stock s)) as [d|] eqn:F.
  - apply filter_unique_key; assumption.
  - destruct (filter _ _) as [|x r] eqn:Fx; [reflexivity|].
    assert (Hx : In x (filter (stock_key w i) (db_stock s)))
      by (rewrite Fx; left; reflexivity).
    apply filter_In in Hx. destruct Hx as [Hin Hk].
    rewrite (find_one_None _ _ F x Hin) in Hk. discriminate.
Qed.

Lemma one_stock_document_per_key_witness :
  reachable stocked
  /\ filter (stock_key "W1" "A") (db_stock stocked)
     = match find_one (stock_key "W1" "A") (db_stock stocked) with
       | Some d => [d]
       | None => []
       end.
Proof.
  assert (H : reachable stocked)
    by (apply reachable_serve; exact (reachable_start [])).
  split; [exact H | exact (one_stock_document_per_key stocked "W1" "A" H)].
Defined.

(** X6: what POST /inventory/move writes, GET /inventory/stock reads,
    as long as requests are served one at a time.  In a state reached that
    way, after a successful movement on a key with non-empty ids, the
    query for that key, whatever its limit, returns exactly one entry, and
    its quantity is the one the movement was answered with. *)
Theorem get_stock_after_move
        (body : InventoryMovement) (s s' : State) (r : MoveResponse)
        (limit : Z) :
  reachable s ->
  post_inventory_move body s = (Ok r, s') ->
  mv_warehouse_id body <> "" ->
  mv_item_id body <> "" ->
  hd false (outages s') = false ->
  exists d,
    outcome (get_stock (Some (mv_warehouse_id body)) (Some (mv_item_id body))
                       limit) s' = Ok [d]
    /\ so_warehouse_id d = mv_warehouse_id body
    /\ so_item_id d = mv_item_id body
    /\ so_quantity d = Some (resp_quantity r).
Proof.
  intros Hr Hcall Hw Hi Hhd.
  assert (Hr' : reachable s').
  { change s' with (snd (Ok r, s')). rewrite <- Hcall.
    exact (reachable_serve (PostInventoryMove body) s Hr). }
  apply stock_keys_unique_reachable in Hr'.
  apply post_inventory_move_Ok in Hcall. destruct Hcall as (_ & -> & ->).
  destruct (find_moved_same body s) as (d & Hf & Hq).
  exists (stock_out d). rewrite get_stock_outcome by exact Hhd.
  rewrite (filter_ext _ _ (fun x => stock_filter_nonempty _ _ x Hw Hi)).
  rewrite (filter_unique_key _ _ _ _ Hr' Hf), cursor_limit_single. simpl.
  destruct (find_one_Some _ _ _ Hf) as [_ Hk].
  apply stock_key_of_true in Hk. inversion Hk.
  repeat split; try reflexivity. exact Hq.
Qed.

Lemma get_stock_after_move_witness :
  reachable empty_db
  /\ post_inventory_move in_10 empty_db
     = (Ok (move_response in_10 empty_db), moved in_10 empty_db)
  /\ exists d,
       outcome (get_stock (Some "W1") (Some "A") 200) (moved in_10 empty_db)
       = Ok [d]
       /\ so_warehouse_id d = "W1"
       /\ so_item_id d = "A"
       /\ so_quantity d = Some (resp_quantity (move_response in_10 empty_db)).
Proof.
  assert (H1 : reachable empty_db) by exact (reachable_start []).
  assert (H2 : post_inventory_move in_10 empty_db
               = (Ok (move_response in_10 empty_db), moved in_10 empty_db))
    by reflexivity.
  assert (H3 : mv_warehouse_id in_10 <> "") by (vm_compute; discriminate).
  assert (H4 : mv_item_id in_10 <> "") by (vm_compute; discriminate).
  assert (H5 : hd false (outages (moved in_10 empty_db)) = false)
    by reflexivity.
  split; [exact H1|]. split; [exact H2|].
  exact (get_stock_after_move in_10 empty_db _ _ 200 H1 H2 H3 H4 H5).
Defined.

(** ** The movement collection only grows *)

Lemma extends_movements_refl (s : State) : extends_movements s s.
Proof. exists []. rewrite app_nil_r. reflexivity. Qed.

Lemma extends_movements_trans (s1 s2 s3 : State) :
  extends_movements s1 s2 -> extends_movements s2 s3 ->
  extends_movements s1 s3.
Proof.
  intros [l1 H1] [l2 H2]. exists (l1 ++ l2).
  rewrite H2, H1, app_assoc. reflexivity.
Qed.

Lemma extends_movements_serve (r : Request) (s : State) :
  extends_movements s (serve r s).
Proof.
  apply (preserves_serve (extends_movements s)).
  - intros s1 s2 _ Hm [l Hl]. exists l. rewrite Hm. exact Hl.
  - intros mv s1 H1. apply (extends_movements_trans _ _ _ H1).
    destruct (inventory_move_cases mv s1)
      as [(_ & Hl & _)|[(_ & Hl & _)|(_ & Hm)]]; unfold after in *.
    + exists []. rewrite Hl, app_nil_r. reflexivity.
    + eexists. rewrite Hl. reflexivity.
    + eexists. rewrite Hm. reflexivity.
  - apply extends_movements_refl.
Qed.

(** X7: movements are append-only.  Whatever requests are served, and
    whether they are answered or end in an exception, every movement
    document on record stays on record, unchanged and in place; new ones
    are added after it. *)
Theorem movements_append_only (rs : list Request) (s : State) :
  extends_movements s (serve_all rs s).
Proof.
  revert s. induction rs as [|r rs IH]; intros s; simpl.
  - apply extends_movements_refl.
  - apply (extends_movements_trans _ (serve r s)).
    + apply extends_movements_serve.
    + apply IH.
Qed.

(** ** [get_stock] *)

Lemma cursor_limit_length {A} (limit : Z) (l : list A) :
  limit <> 0%Z -> (List.length (cursor_limit limit l) <= Z.abs_nat limit)%nat.
Proof.
  intros H. unfold cursor_limit. apply Z.eqb_neq in H. rewrite H.
  rewrite length_firstn. apply Nat.le_min_l.
Qed.

Lemma get_stock_run (w i : option string) (limit : Z) (s : State)
      (docs : list StockOut) :
  outcome (get_stock w i limit) s = Ok docs ->
  docs = map stock_out
           (cursor_limit limit (filter (stock_filter w i) (db_stock s))).
Proof.
  unfold outcome, get_stock, bind, storage_call.
  destruct (outages s) as [|[|] o]; simpl; intros H;
    inversion H; reflexivity.
Qed.

Lemma stock_filter_truthy (w i : option string) (d : StockDoc) :
  stock_filter w i d = true ->
  (truthy w = true -> w = Some (st_warehouse_id d))
  /\ (truthy i = true -> i = Some (st_item_id d)).
Proof.
  unfold stock_filter. rewrite andb_true_iff. intros [Hw Hi]. split.
  - intros Ht. destruct w as [w|]; [|discriminate]. rewrite Ht in Hw.
    apply String.eqb_eq in Hw. rewrite Hw. reflexivity.
  - intros Ht. destruct i as [i|]; [|discriminate]. rewrite Ht in Hi.
    apply String.eqb_eq in Hi. rewrite Hi. reflexivity.
Qed.

(** X8: GET /inventory/stock only reads.  It leaves the three
    collections as they are; every entry it returns is a stored stock
    document that carries the requested warehouse and the requested item,
    for each of the two that is given and non-empty; and a limit other than
    zero bounds the number of entries by its absolute value. *)
Theorem get_stock_sound (w i : option string) (limit : Z) (s : State)
        (docs : list StockOut) :
  outcome (get_stock w i limit) s = Ok docs ->
  let s' := after (get_stock w i limit) s in
  (db_stock s' = db_stock s
   /\ db_inventorymovement s' = db_inventorymovement s
   /\ db_shipment s' = db_shipment s)
  /\ (forall d, In d docs ->
        exists d0, In d0 (db_stock s) /\ d = stock_out d0
                   /\ (truthy w = true -> w = Some (so_warehouse_id d))
                   /\ (truthy i = true -> i = Some (so_item_id d)))
  /\ (limit <> 0%Z -> (List.length docs <= Z.abs_nat limit)%nat).
Proof.
  intros Hout. cbv zeta. split; [|split].
  - unfold after, get_stock, bind, storage_call.
    destruct (outages s) as [|[|] o]; simpl; repeat split.
  - apply get_stock_run in Hout. subst docs. intros d Hd.
    apply in_map_iff in Hd. destruct Hd as (d0 & <- & Hd0).
    apply cursor_limit_In in Hd0. apply filter_In in Hd0.
    destruct Hd0 as [Hin Hf]. exists d0. split; [exact Hin|].
    split; [reflexivity|]. simpl. apply stock_filter_truthy, Hf.
  - intros Hl. apply get_stock_run in Hout. subst docs.
    rewrite length_map. apply cursor_limit_length, Hl.
Qed.

Lemma get_stock_sound_witness :
  outcome (get_stock (Some "W1") None 1) delivered
  = Ok [mkStockOut "000000000000000000000001" "W1" "A" (Some 5%float)]
  /\ db_stock (after (get_stock (Some "W1") None 1) delivered)
     = db_stock delivered.
Proof.
  assert (H : outcome (get_stock (Some "W1") None 1) delivered
              = Ok [mkStockOut "000000000000000000000001" "W1" "A" (Some 5%float)])
    by (vm_compute; reflexivity).
  split; [exact H|].
  exact (proj1 (proj1 (get_stock_sound _ _ _ _ _ H))).
Defined.

Lemma filter_all {A} (p : A -> bool) (l : list A) :
  (forall x, p x = true) -> filter p l = l.
Proof.
  intros H. induction l as [|x r IH]; simpl; [reflexivity|].
  rewrite H, IH. reflexivity.
Qed.

(** X9: an argument that is missing or the empty string filters nothing.
    With neither a warehouse nor an item and limit 0 (no limit), the query
    returns every stock document, in store order. *)
Theorem get_stock_unfiltered (w i : option string) (s : State) :
  truthy w = false ->
  truthy i = false ->
  hd false (outages s) = false ->
  outcome (get_stock w i 0) s = Ok (map stock_out (db_stock s)).
Proof.
  intros Hw Hi Hhd. rewrite get_stock_outcome by exact Hhd.
  unfold cursor_limit; simpl. rewrite filter_all; [reflexivity|].
  intros d. unfold stock_filter. rewrite Hw, Hi.
  destruct w, i; reflexivity.
Qed.

Lemma get_stock_unfiltered_witness :
  truthy (Some "") = false
  /\ truthy None = false
  /\ hd false (outages delivered) = false
  /\ outcome (get_stock (Some "") None 0) delivered
     = Ok (map stock_out (db_stock delivered)).
Proof.
  assert (H1 : truthy (Some "") = false) by reflexivity.
  assert (H2 : truthy None = false) by reflexivity.
  assert (H3 : hd false (outages delivered) = false) by reflexivity.
  split; [exact H1|]. split; [exact H2|]. split; [exact H3|].
  exact (get_stock_unfiltered (Some "") None delivered H1 H2 H3).
Defined.

(** ** [to_obj_id] and the ids of documents *)

Lemma hex_value_hex_digit (d : N) :
  (d < 16)%N -> hex_value (hex_digit d) = Some d.
Proof.
  intros H.
  assert (Hd : In d [0; 1; 2; 3; 4; 5; 6; 7; 8; 9; 10; 11; 12; 13; 14; 15]%N).
  { simpl. lia. }
  simpl in Hd.
  repeat (destruct Hd as [<-|Hd]; [reflexivity|]). destruct Hd.
Qed.

Lemma length_hex_digits (k : nat) (n : N) (acc : string) :
  String.length (hex_digits k n acc) = (k + String.length acc)%nat.
Proof.
  revert n acc. induction k as [|k IH]; intros n acc; simpl; [reflexivity|].
  rewrite IH. simpl. lia.
Qed.

Lemma is_space_hex_digit (d : N) :
  (d < 16)%N -> is_space (hex_digit d) = false.
Proof.
  intros H.
  assert (Hd : In d [0; 1; 2; 3; 4; 5; 6; 7; 8; 9; 10; 11; 12; 13; 14; 15]%N).
  { simpl. lia. }
  simpl in Hd.
  repeat (destruct Hd as [<-|Hd]; [reflexivity|]). destruct Hd.
Qed.

Lemma fromhex_hex_digits (k : nat) (n a : N) (acc : string) (count : nat) :
  fromhex (hex_digits (2 * k) n acc) count a
  = fromhex acc (count + k)
            (a * 256 ^ N.of_nat k + n mod 256 ^ N.of_nat k)%N.
Proof.
  revert n a acc count. induction k as [|k IH]; intros n a acc count.
  - simpl. rewrite N.mod_1_r, N.mul_1_r, N.add_0_r, Nat.add_0_r.
    reflexivity.
  - replace (2 * S k)%nat with (S (S (2 * k))) by lia.
    cbn [hex_digits]. rewrite IH. cbn [fromhex].
    rewrite is_space_hex_digit by (apply N.mod_lt; discriminate).
    rewrite !hex_value_hex_digit by (apply N.mod_lt; discriminate).
    f_equal; [lia|].
    rewrite Nat2N.inj_succ, N.pow_succ_r'.
    rewrite (N.Div0.mod_mul_r n 256 (256 ^ N.of_nat k)).
    rewrite N.Div0.div_div. change (16 * 16)%N with 256%N.
    rewrite (N.Div0.mod_mul_r n 16 16 : (n mod 256 = _)%N).
    ring.
Qed.

Lemma ObjectId_round_trip (o : ObjectId) :
  (o < oid_bound)%N -> ObjectId_of_string (str_ObjectId o) = Some o.
Proof.
  intros H. unfold ObjectId_of_string, str_ObjectId.
  rewrite length_hex_digits. simpl String.length. cbn [Nat.add Nat.eqb].
  change (hex_digits 24 o "") with (hex_digits (2 * 12) o "").
  rewrite (fromhex_hex_digits 12 o 0 "" 0). cbn [fromhex Nat.add Nat.eqb].
  f_equal. rewrite N.mul_0_l, N.add_0_l. apply N.mod_small. exact H.
Qed.

(** The ids [ObjectId_of_string] rejects are strings [bson] rejects: a
    string that is not of twenty-four characters is one of them. *)
Lemma ObjectId_of_string_length (id : string) :
  String.length id <> 24%nat -> ObjectId_of_string id = None.
Proof.
  intros H. unfold ObjectId_of_string. apply Nat.eqb_neq in H. rewrite H.
  reflexivity.
Qed.

(** X10: a shipment id that [ObjectId] refuses, which is a string that
    is not of twenty-four characters or that [bytes.fromhex] cannot read
    (a character that is neither a hexadecimal digit nor whitespace, or a
    digit without its pair), ends the request in HTTP 400 "Invalid id"
    before the store is called: the state, failure schedule included, is
    the one the request found. *)
Theorem update_shipment_status_invalid_id
        (shipment_id : string) (body : ShipmentUpdateStatus) (s : State) :
  ObjectId_of_string shipment_id = None ->
  update_shipment_status shipment_id body s
  = (Raise (HTTPException 400 "Invalid id"), s).
Proof.
  intros H. unfold update_shipment_status, read_shipment, to_obj_id, bind.
  rewrite H. reflexivity.
Qed.

Lemma update_shipment_status_invalid_id_witness :
  ObjectId_of_string "SHP-1" = None
  /\ update_shipment_status "SHP-1" (status_body "picked") created
     = (Raise (HTTPException 400 "Invalid id"), created).
Proof.
  assert (H : ObjectId_of_string "SHP-1" = None) by reflexivity.
  split; [exact H|].
  exact (update_shipment_status_invalid_id "SHP-1" (status_body "picked")
                                           created H).
Defined.

(** X11: a well-formed id that no shipment carries ends the request in
    HTTP 404 "Shipment not found" with the three collections as they
    were: no status is written and no movement is recorded. *)
Theorem update_shipment_status_not_found
        (shipment_id : string) (oid : ObjectId) (body : ShipmentUpdateStatus)
        (s : State) :
  ObjectId_of_string shipment_id = Some oid ->
  find_one (shipment_id_is oid) (db_shipment s) = None ->
  hd false (outages s) = false ->
  let s' := after (update_shipment_status shipment_id body) s in
  outcome (update_shipment_status shipment_id body) s
  = Raise (HTTPException 404 "Shipment not found")
  /\ db_shipment s' = db_shipment s
  /\ db_stock s' = db_stock s
  /\ db_inventorymovement s' = db_inventorymovement s.
Proof.
  intros Hid Hf Hhd. cbv zeta. unfold outcome, after.
  unfold update_shipment_status, read_shipment, to_obj_id, shipment_find_one,
    storage_call, bind, ret, raise.
  rewrite Hid.
  destruct (outages s) as [|[|] o]; simpl in *; try discriminate;
    rewrite Hf; simpl; repeat split.
Qed.

Lemma update_shipment_status_not_found_witness :
  ObjectId_of_string "000000000000000000000007" = Some 7%N
  /\ find_one (shipment_id_is 7%N) (db_shipment created) = None
  /\ hd false (outages created) = false
  /\ outcome (update_shipment_status "000000000000000000000007"
                                     (status_body "picked")) created
     = Raise (HTTPException 404 "Shipment not found").
Proof.
  assert (H1 : ObjectId_of_string "000000000000000000000007" = Some 7%N)
    by reflexivity.
  assert (H2 : find_one (shipment_id_is 7%N) (db_shipment created) = None)
    by reflexivity.
  assert (H3 : hd false (outages created) = false) by reflexivity.
  split; [exact H1|]. split; [exact H2|]. split; [exact H3|].
  exact (proj1 (update_shipment_status_not_found
                  _ 7%N (status_body "picked") created H1 H2 H3)).
Defined.

(** ** [create_shipment] *)

Lemma validate_items_cases (l : list MovementItem) (s : State) :
  (Forall (fun it => gt0 (it_quantity it) = true) l
   /\ validate_items l s = (Ok l, s))
  \/ (Exists (fun it => gt0 (it_quantity it) = false) l
      /\ validate_items l s = (Raise ValidationError, s)).
Proof.
  induction l as [|it r IH]; simpl.
  - left. split; [constructor | reflexivity].
  - unfold MovementItem_validate.
    destruct (gt0 (it_quantity it)) eqn:Hit; cbv [bind ret raise].
    + destruct IH as [[Hr ->]|[Hr ->]].
      * left. split; [constructor; assumption | reflexivity].
      * right. split; [apply Exists_cons_tl, Hr | reflexivity].
    + right. split; [apply Exists_cons_hd, Hit | reflexivity].
Qed.

Lemma post_shipments_Ok (payload : ShipmentCreate) (s s1 : State)
      (id : string) :
  post_shipments payload s = (Ok id, s1) ->
  Forall (fun it => gt0 (it_quantity it) = true) (sc_items payload)
  /\ id = str_ObjectId (next_oid s)
  /\ s1 = shipment_created payload s.
Proof.
  unfold post_shipments, ShipmentCreate_validate. unfold bind at 1 2.
  destruct (validate_items_cases (sc_items payload) s) as [[Hpos ->]|[_ ->]];
    [|discriminate].
  unfold ret at 1. unfold create_shipment, shipment_insert_one, storage_call,
    fresh_oid, bind, ret, shipment_created, shipment_doc.
  destruct (outages s) as [|[|] o] eqn:E; simpl; try discriminate;
    intros H; inversion H; subst; (split; [exact Hpos|]);
    (split; [reflexivity|]);
    unfold set_shipment, set_next_oid, set_outages; simpl; rewrite ?E;
    reflexivity.
Qed.

Lemma post_shipments_answered (payload : ShipmentCreate) (s : State) :
  Forall (fun it => gt0 (it_quantity it) = true) (sc_items payload) ->
  hd false (outages s) = false ->
  post_shipments payload s
  = (Ok (str_ObjectId (next_oid s)), shipment_created payload s).
Proof.
  intros Hpos Hhd. unfold post_shipments, ShipmentCreate_validate.
  unfold bind at 1 2.
  destruct (validate_items_cases (sc_items payload) s) as [[_ ->]|[Hbad _]].
  - unfold ret at 1. unfold create_shipment, shipment_insert_one,
      storage_call, fresh_oid, bind, ret, shipment_created, shipment_doc.
    destruct (outages s) as [|[|] o] eqn:E; simpl in *; try discriminate;
      unfold set_shipment, set_next_oid, set_outages; simpl; rewrite ?E;
      reflexivity.
  - exfalso. apply Exists_exists in Hbad. destruct Hbad as (it & Hin & Hit).
    rewrite Forall_forall in Hpos. rewrite (Hpos it Hin) in Hit.
    discriminate.
Qed.

(** X12: creating a shipment reserves nothing.  For a payload whose
    lines all have a positive quantity, POST /shipments, when the store
    answers, returns the new document's id and adds one shipment with
    the payload's fields in status 'created'; no movement is recorded and
    no stock document is touched. *)
Theorem post_shipments_effect (payload : ShipmentCreate) (s : State) :
  Forall (fun it => gt0 (it_quantity it) = true) (sc_items payload) ->
  hd false (outages s) = false ->
  let s' := after (post_shipments payload) s in
  outcome (post_shipments payload) s = Ok (str_ObjectId (next_oid s))
  /\ db_shipment s'
     = db_shipment s ++ [shipment_doc (next_oid s) payload]
  /\ sh_status (shipment_doc (next_oid s) payload) = "created"
  /\ db_inventorymovement s' = db_inventorymovement s
  /\ db_stock s' = db_stock s.
Proof.
  intros Hpos Hhd. cbv zeta. unfold outcome, after.
  rewrite (post_shipments_answered payload s Hpos Hhd). simpl.
  repeat split.
Qed.

Lemma post_shipments_effect_witness :
  Forall (fun it => gt0 (it_quantity it) = true) (sc_items shp1)
  /\ hd false (outages stocked) = false
  /\ outcome (post_shipments shp1) stocked = Ok (str_ObjectId (next_oid stocked))
  /\ db_stock (after (post_shipments shp1) stocked) = db_stock stocked.
Proof.
  assert (H1 : Forall (fun it => gt0 (it_quantity it) = true) (sc_items shp1))
    by (apply Forall_cons; [reflexivity | apply Forall_nil]).
  assert (H2 : hd false (outages stocked) = false) by reflexivity.
  split; [exact H1|]. split; [exact H2|].
  destruct (post_shipments_effect shp1 stocked H1 H2) as (Ho & _ & _ & _ & Hs).
  split; [exact Ho | exact Hs].
Defined.

(** X13: a payload with a line whose quantity is zero or negative is
    rejected by the validation of [MovementItem] ([gt=0]): the request ends
    in a validation error and the state is the one it found. *)
Theorem post_shipments_rejects_nonpositive_line
        (payload : ShipmentCreate) (s : State) :
  Exists (fun it => (it_quantity it <=? 0)%float = true) (sc_items payload) ->
  post_shipments payload s = (Raise ValidationError, s).
Proof.
  intros Hbad. unfold post_shipments, ShipmentCreate_validate.
  unfold bind at 1 2.
  destruct (validate_items_cases (sc_items payload) s) as [[Hpos _]|[_ ->]];
    [|reflexivity].
  exfalso. apply Exists_exists in Hbad. destruct Hbad as (it & Hin & Hit).
  rewrite Forall_forall in Hpos. specialize (Hpos it Hin).
  rewrite (gt0_false _ Hit) in Hpos. discriminate.
Qed.

Lemma post_shipments_rejects_nonpositive_line_witness :
  Exists (fun it => (it_quantity it <=? 0)%float = true) (sc_items shp_bad)
  /\ post_shipments shp_bad stocked = (Raise ValidationError, stocked).
Proof.
  assert (H : Exists (fun it => (it_quantity it <=? 0)%float = true)
                     (sc_items shp_bad))
    by (apply Exists_cons_tl, Exists_cons_hd; reflexivity).
  split; [exact H|].
  exact (post_shipments_rejects_nonpositive_line shp_bad stocked H).
Defined.

(** ** What every handler preserves of the shipments *)

Section ShipmentInvariant.
Variable P : State -> Prop.
Hypothesis P_frame :
  forall s s', db_shipment s' = db_shipment s ->
               (next_oid s <= next_oid s')%N ->
               P s -> P s'.
Hypothesis P_status :
  forall s oid status,
    P s ->
    P (set_shipment (update_one (shipment_id_is oid) (set_status status)
                                (db_shipment s)) s).
Hypothesis P_insert :
  forall s payload,
    Forall (fun it => gt0 (it_quantity it) = true) (sc_items payload) ->
    P s -> P (shipment_created payload s).

Lemma keeps_storage_call : preserves P storage_call.
Proof.
  intros s H. unfold storage_call.
  destruct (outages s) as [|[|] o]; simpl;
    [exact H | | ]; apply (P_frame s); simpl; auto; apply N.le_refl.
Qed.

Lemma keeps_fresh_oid : preserves P fresh_oid.
Proof.
  intros s H. apply (P_frame s); simpl; [reflexivity | lia | exact H].
Qed.

Lemma keeps_write (f : State -> State) :
  (forall s, db_shipment (f s) = db_shipment s) ->
  (forall s, next_oid (f s) = next_oid s) ->
  preserves P (fun s => (Ok tt, f s)).
Proof.
  intros Hs Hn s H. simpl. apply (P_frame s); [apply Hs | | exact H].
  rewrite Hn. apply N.le_refl.
Qed.

Lemma keeps_inventory_move (mv : InventoryMovement) :
  preserves P (inventory_move mv).
Proof.
  unfold inventory_move, create_document, stock_find_one, stock_update_one,
    stock_insert_one.
  repeat (first [ apply preserves_bind; [|intros ?]
                | apply preserves_ret
                | apply keeps_storage_call
                | apply keeps_fresh_oid
                | apply keeps_write; intros; reflexivity
                | match goal with
                  | |- preserves _ (match ?d with _ => _ end) => destruct d
                  | |- preserves _ (fun s => (Ok _, s)) =>
                      let s := fresh "s" in
                      let H := fresh "H" in intros s H; exact H
                  end ]).
Qed.

Lemma keeps_post_inventory_move (body : InventoryMovement) :
  preserves P (post_inventory_move body).
Proof.
  unfold post_inventory_move, InventoryMovement_validate.
  apply preserves_bind; [|apply keeps_inventory_move].
  destruct (gt0 _); [apply preserves_ret | apply preserves_raise].
Qed.

Lemma keeps_move_line (type w : string) (ship : ShipmentDoc)
      (it : MovementItem) :
  preserves P (move_line type w ship it).
Proof.
  unfold move_line, InventoryMovement_validate.
  apply preserves_bind.
  - destruct (gt0 _); [apply preserves_ret | apply preserves_raise].
  - intros mv. apply preserves_bind; [apply keeps_inventory_move|].
    intros _. apply preserves_ret.
Qed.

Lemma keeps_update_shipment_status (shipment_id : string)
      (body : ShipmentUpdateStatus) :
  preserves P (update_shipment_status shipment_id body).
Proof.
  unfold update_shipment_status, read_shipment, to_obj_id.
  apply preserves_bind.
  - apply preserves_bind.
    + destruct (ObjectId_of_string _);
        [apply preserves_ret | apply preserves_raise].
    + intros oid. apply preserves_bind.
      * unfold shipment_find_one.
        apply preserves_bind; [apply keeps_storage_call|].
        intros _ s H. exact H.
      * intros [d|]; [apply preserves_ret | apply preserves_raise].
  - intros ship. unfold apply_status, shipment_update_one.
    apply preserves_bind.
    + apply preserves_bind; [apply keeps_storage_call|].
      intros _ s H. apply P_status, H.
    + intros _. apply preserves_bind.
      * destruct (_ =? "picked");
          [apply preserves_for_each; intros; apply keeps_move_line
          | apply preserves_ret].
      * intros _. apply preserves_bind; [|intros _; apply preserves_ret].
        destruct (_ =? "delivered"); [|apply preserves_ret].
        destruct (sh_destination_warehouse_id ship) as [w|];
          [|apply preserves_ret].
        destruct (truthy (Some w)); [|apply preserves_ret].
        apply preserves_for_each; intros; apply keeps_move_line.
Qed.

Lemma keeps_post_shipments (body : ShipmentCreate) :
  preserves P (post_shipments body).
Proof.
  intros s H.
  destruct (post_shipments body s) as [[id|e] s1] eqn:Hcall; simpl.
  - apply post_shipments_Ok in Hcall. destruct Hcall as (Hpos & _ & ->).
    apply P_insert; assumption.
  - revert Hcall. unfold post_shipments, ShipmentCreate_validate.
    unfold bind at 1 2.
    destruct (validate_items_cases (sc_items body) s) as [[_ ->]|[_ ->]].
    + unfold ret at 1. unfold create_shipment, shipment_insert_one,
        storage_call, fresh_oid, bind, ret.
      destruct (outages s) as [|[|] o]; simpl; try discriminate.
      intros Hc. inversion Hc; subst.
      apply (P_frame s); [reflexivity | apply N.le_refl | exact H].
    + intros Hc. inversion Hc; subst. exact H.
Qed.

Lemma keeps_serve (r : Request) (s : State) : P s -> P (serve r s).
Proof.
  destruct r; simpl; unfold after.
  - apply keeps_post_inventory_move.
  - intros H. unfold get_stock, bind, storage_call.
    destruct (outages s) as [|[|] o]; simpl; [exact H | |];
      apply (P_frame s); simpl; auto; apply N.le_refl.
  - apply keeps_post_shipments.
  - apply keeps_update_shipment_status.
Qed.
End ShipmentInvariant.

Lemma Forall_update_one {A} (Q : A -> Prop) (p : A -> bool) (f : A -> A)
      (c : list A) :
  (forall d, Q d -> Q (f d)) -> Forall Q c -> Forall Q (update_one p f c).
Proof.
  intros Hf H. induction H as [|d r Hd Hr IH]; simpl; [constructor|].
  destruct (p d); constructor; auto.
Qed.

Lemma shipments_positive_reachable (s : State) :
  reachable s -> shipments_positive s.
Proof.
  induction 1 as [o|r s _ IH].
  - constructor.
  - apply (keeps_serve shipments_positive); [| | |exact IH].
    + unfold shipments_positive. intros s1 s2 -> _. auto.
    + unfold shipments_positive. intros s1 oid status H1. simpl.
      apply Forall_update_one; [|exact H1]. intros d Hd. exact Hd.
    + unfold shipments_positive, shipment_created, insert_one.
      intros s1 payload Hpos H1. simpl. apply Forall_app. split; [exact H1|].
      constructor; [exact Hpos | constructor].
Qed.

(** X14: in every reachable state every line of every stored shipment
    has a quantity above zero: the validation at creation is never undone,
    since a status request changes the status only. *)
Theorem reachable_shipments_positive (s : State) (d : ShipmentDoc)
        (it : MovementItem) :
  reachable s ->
  In d (db_shipment s) ->
  In it (sh_items d) ->
  (0 <? it_quantity it)%float = true.
Proof.
  intros Hr Hd Hit. apply shipments_positive_reachable in Hr.
  unfold shipments_positive in Hr. rewrite Forall_forall in Hr.
  specialize (Hr d Hd). unfold lines_positive in Hr.
  rewrite Forall_forall in Hr. apply (Hr it Hit).
Qed.

Lemma reachable_shipments_positive_witness :
  reachable created
  /\ In shp1_created (db_shipment created)
  /\ In (mkMovementItem "A" 5) (sh_items shp1_created)
  /\ (0 <? it_quantity (mkMovementItem "A" 5))%float = true.
Proof.
  assert (H1 : reachable created).
  { unfold created. apply (reachable_serve (PostShipments _)).
    apply (reachable_serve (PostInventoryMove _)).
    exact (reachable_start []). }
  assert (H2 : In shp1_created (db_shipment created))
    by (left; reflexivity).
  assert (H3 : In (mkMovementItem "A" 5) (sh_items shp1_created))
    by (left; reflexivity).
  split; [exact H1|]. split; [exact H2|]. split; [exact H3|].
  exact (reachable_shipments_positive created shp1_created _ H1 H2 H3).
Defined.

Lemma reachable_shipment_ids_fresh (s : State) :
  reachable s -> shipment_ids_fresh s.
Proof.
  induction 1 as [o|r s _ IH].
  - constructor.
  - apply (keeps_serve shipment_ids_fresh); [| | |exact IH].
    + unfold shipment_ids_fresh. intros s1 s2 -> Hle H1.
      apply Forall_impl with (2 := H1). intros d Hd. lia.
    + unfold shipment_ids_fresh. intros s1 oid status H1. simpl.
      apply Forall_update_one; [|exact H1]. intros d Hd. exact Hd.
    + unfold shipment_ids_fresh, shipment_created, insert_one.
      intros s1 payload _ H1. simpl. apply Forall_app. split.
      * apply Forall_impl with (2 := H1). intros d Hd. lia.
      * constructor; [simpl; lia | constructor].
Qed.

(** ** From [create_shipment] to [update_shipment_status] *)

Lemma find_created (payload : ShipmentCreate) (s : State) :
  shipment_ids_fresh s ->
  find_one (shipment_id_is (next_oid s))
           (db_shipment (shipment_created payload s))
  = Some (shipment_doc (next_oid s) payload).
Proof.
  intros Hfresh. unfold shipment_created; simpl.
  rewrite find_one_insert_one, find_one_all_false.
  - unfold shipment_id_is; simpl. rewrite N.eqb_refl. reflexivity.
  - unfold shipment_ids_fresh in Hfresh. rewrite Forall_forall in Hfresh.
    intros d Hd. unfold shipment_id_is. apply N.eqb_neq.
    specialize (Hfresh d Hd). lia.
Qed.

(** X15: the id POST /shipments returns designates the shipment it
    created.  In a reachable state, while ids fit in twelve bytes, the
    returned string is accepted by [to_obj_id], the shipment found under
    it is the one made from the payload, and a status request on it is
    answered with the requested status when the store answers. *)
Theorem created_shipment_is_found
        (payload : ShipmentCreate) (s s1 : State) (id : string) :
  reachable s ->
  (next_oid s < oid_bound)%N ->
  post_shipments payload s = (Ok id, s1) ->
  ObjectId_of_string id = Some (next_oid s)
  /\ find_one (shipment_id_is (next_oid s)) (db_shipment s1)
     = Some (shipment_doc (next_oid s) payload)
  /\ (available s1 ->
      forall body,
        outcome (update_shipment_status id body) s1 = Ok (body_status body)).
Proof.
  intros Hr Hb Hcall. apply post_shipments_Ok in Hcall.
  destruct Hcall as (Hpos & -> & ->).
  pose proof (ObjectId_round_trip _ Hb) as Hid.
  pose proof (find_created payload s (reachable_shipment_ids_fresh s Hr)) as Hf.
  split; [exact Hid|]. split; [exact Hf|].
  intros Hs body.
  exact (proj1 (update_shipment_status_effect _ _ _ body _ Hs Hid Hf Hpos)).
Qed.

Lemma created_shipment_is_found_witness :
  reachable stocked
  /\ (next_oid stocked < oid_bound)%N
  /\ post_shipments shp1 stocked = (Ok shp1_id, created)
  /\ ObjectId_of_string shp1_id = Some (next_oid stocked)
  /\ find_one (shipment_id_is (next_oid stocked)) (db_shipment created)
     = Some (shipment_doc (next_oid stocked) shp1).
Proof.
  assert (H1 : reachable stocked)
    by (apply reachable_serve; exact (reachable_start [])).
  assert (H2 : (next_oid stocked < oid_bound)%N) by reflexivity.
  assert (H3 : post_shipments shp1 stocked = (Ok shp1_id, created))
    by reflexivity.
  split; [exact H1|]. split; [exact H2|]. split; [exact H3|].
  destruct (created_shipment_is_found shp1 stocked created shp1_id H1 H2 H3)
    as (Ha & Hb & _).
  split; [exact Ha | exact Hb].
Defined.

(** X16: in a reachable state, a status request with a well-formed id
    of a stored shipment never fails while the store answers: whatever
    status is requested, it is answered with that status. *)
Theorem update_shipment_status_succeeds
        (shipment_id : string) (oid : ObjectId) (ship : ShipmentDoc)
        (body : ShipmentUpdateStatus) (s : State) :
  reachable s ->
  available s ->
  ObjectId_of_string shipment_id = Some oid ->
  find_one (shipment_id_is oid) (db_shipment s) = Some ship ->
  outcome (update_shipment_status shipment_id body) s = Ok (body_status body).
Proof.
  intros Hr Hs Hid Hf.
  pose proof (shipments_positive_reachable s Hr) as Hall.
  unfold shipments_positive in Hall. rewrite Forall_forall in Hall.
  destruct (find_one_Some _ _ _ Hf) as [Hin _].
  exact (proj1 (update_shipment_status_effect _ _ _ body _ Hs Hid Hf
                  (Hall ship Hin))).
Qed.

Lemma update_shipment_status_succeeds_witness :
  reachable created
  /\ available created
  /\ ObjectId_of_string shp1_id = Some 2%N
  /\ find_one (shipment_id_is 2%N) (db_shipment created) = Some shp1_created
  /\ outcome (update_shipment_status shp1_id (status_body "lost")) created
     = Ok "lost".
Proof.
  assert (H1 : reachable created).
  { unfold created. apply (reachable_serve (PostShipments _)).
    apply (reachable_serve (PostInventoryMove _)).
    exact (reachable_start []). }
  assert (H2 : available created) by reflexivity.
  assert (H3 : ObjectId_of_string shp1_id = Some 2%N) by reflexivity.
  assert (H4 : find_one (shipment_id_is 2%N) (db_shipment created)
               = Some shp1_created) by reflexivity.
  split; [exact H1|]. split; [exact H2|]. split; [exact H3|].
  split; [exact H4|].
  exact (update_shipment_status_succeeds shp1_id 2%N shp1_created
           (status_body "lost") created H1 H2 H3 H4).
Defined.

(** ** [update_shipment_status]: what a request leaves alone *)

Lemma update_without_movements
      (shipment_id : string) (oid : ObjectId) (ship : ShipmentDoc)
      (body : ShipmentUpdateStatus) (s : State) :
  available s ->
  ObjectId_of_string shipment_id = Some oid ->
  find_one (shipment_id_is oid) (db_shipment s) = Some ship ->
  emitted ship (body_status body) = [] ->
  let s' := after (update_shipment_status shipment_id body) s in
  outcome (update_shipment_status shipment_id body) s = Ok (body_status body)
  /\ db_inventorymovement s' = db_inventorymovement s
  /\ db_stock s' = db_stock s.
Proof.
  intros Hs Hid Hf Hem. cbv zeta. unfold outcome, after.
  rewrite (update_shipment_status_available _ _ _ _ _ Hs Hid Hf)
    by (rewrite Hem; constructor).
  unfold applied. rewrite Hem. simpl. repeat split.
Qed.

(** X17: a request for a status other than 'picked' and 'delivered',
    'cancelled' among them, records no movement and touches no stock
    document, whatever the status of the shipment: cancelling a picked
    shipment does not return its stock. *)
Theorem other_status_moves_nothing
        (shipment_id : string) (oid : ObjectId) (ship : ShipmentDoc)
        (body : ShipmentUpdateStatus) (s : State) :
  available s ->
  ObjectId_of_string shipment_id = Some oid ->
  find_one (shipment_id_is oid) (db_shipment s) = Some ship ->
  body_status body <> "picked" ->
  body_status body <> "delivered" ->
  let s' := after (update_shipment_status shipment_id body) s in
  outcome (update_shipment_status shipment_id body) s = Ok (body_status body)
  /\ db_inventorymovement s' = db_inventorymovement s
  /\ db_stock s' = db_stock s.
Proof.
  intros Hs Hid Hf Hp Hd.
  apply (update_without_movements _ _ _ _ _ Hs Hid Hf).
  unfold emitted. apply String.eqb_neq in Hp, Hd. rewrite Hp, Hd.
  reflexivity.
Qed.

Lemma other_status_moves_nothing_witness :
  available picked
  /\ ObjectId_of_string shp1_id = Some 2%N
  /\ find_one (shipment_id_is 2%N) (db_shipment picked) = Some shp1_picked
  /\ outcome (update_shipment_status shp1_id (status_body "cancelled")) picked
     = Ok "cancelled"
  /\ db_stock (after (update_shipment_status shp1_id (status_body "cancelled"))
                     picked)
     = db_stock picked.
Proof.
  assert (H1 : available picked) by reflexivity.
  assert (H2 : ObjectId_of_string shp1_id = Some 2%N) by reflexivity.
  assert (H3 : find_one (shipment_id_is 2%N) (db_shipment picked)
               = Some shp1_picked) by reflexivity.
  assert (H4 : body_status (status_body "cancelled") <> "picked")
    by (vm_compute; discriminate).
  assert (H5 : body_status (status_body "cancelled") <> "delivered")
    by (vm_compute; discriminate).
  split; [exact H1|]. split; [exact H2|]. split; [exact H3|].
  destruct (other_status_moves_nothing shp1_id 2%N shp1_picked
              (status_body "cancelled") picked H1 H2 H3 H4 H5)
    as (Ho & _ & Hst).
  split; [exact Ho | exact Hst].
Defined.

(** X18: a destination warehouse that is the empty string counts as no
    destination: 'delivered' is answered, records no movement and touches
    no stock document. *)
Theorem delivered_blank_destination_records_nothing
        (shipment_id : string) (oid : ObjectId) (ship : ShipmentDoc)
        (s : State) :
  available s ->
  ObjectId_of_string shipment_id = Some oid ->
  find_one (shipment_id_is oid) (db_shipment s) = Some ship ->
  sh_destination_warehouse_id ship = Some "" ->
  let body := status_body "delivered" in
  let s' := after (update_shipment_status shipment_id body) s in
  outcome (update_shipment_status shipment_id body) s = Ok "delivered"
  /\ db_inventorymovement s' = db_inventorymovement s
  /\ db_stock s' = db_stock s.
Proof.
  intros Hs Hid Hf Hdest.
  apply (update_without_movements _ _ _ (status_body "delivered") _ Hs Hid Hf).
  unfold emitted; simpl. rewrite Hdest. reflexivity.
Qed.

Lemma delivered_blank_destination_records_nothing_witness :
  available (shipment_created shp_blank stocked)
  /\ ObjectId_of_string shp1_id = Some 2%N
  /\ find_one (shipment_id_is 2%N)
              (db_shipment (shipment_created shp_blank stocked))
     = Some shp_blank_doc
  /\ sh_destination_warehouse_id shp_blank_doc = Some ""
  /\ outcome (update_shipment_status shp1_id (status_body "delivered"))
             (shipment_created shp_blank stocked)
     = Ok "delivered".
Proof.
  assert (H1 : available (shipment_created shp_blank stocked)) by reflexivity.
  assert (H2 : ObjectId_of_string shp1_id = Some 2%N) by reflexivity.
  assert (H3 : find_one (shipment_id_is 2%N)
                        (db_shipment (shipment_created shp_blank stocked))
               = Some shp_blank_doc) by reflexivity.
  assert (H4 : sh_destination_warehouse_id shp_blank_doc = Some "")
    by reflexivity.
  split; [exact H1|]. split; [exact H2|]. split; [exact H3|].
  split; [exact H4|].
  exact (proj1 (delivered_blank_destination_records_nothing
                  shp1_id 2%N shp_blank_doc _ H1 H2 H3 H4)).
Defined.

(** X19: a status request changes one shipment only, and of that
    shipment the status only: the shipment found under any other id is
    the document it was, and the addressed one keeps its number,
    warehouses and lines. *)
Theorem update_shipment_status_frame
        (shipment_id : string) (oid : ObjectId) (ship : ShipmentDoc)
        (body : ShipmentUpdateStatus) (s : State) :
  available s ->
  ObjectId_of_string shipment_id = Some oid ->
  find_one (shipment_id_is oid) (db_shipment s) = Some ship ->
  lines_positive ship ->
  let s' := after (update_shipment_status shipment_id body) s in
  find_one (shipment_id_is oid) (db_shipment s')
  = Some (set_status (body_status body) ship)
  /\ forall oid', oid' <> oid ->
       find_one (shipment_id_is oid') (db_shipment s')
       = find_one (shipment_id_is oid') (db_shipment s).
Proof.
  intros Hs Hid Hf Hpos. cbv zeta. unfold after.
  rewrite (update_shipment_status_available _ _ _ _ _ Hs Hid Hf
             (lines_positive_emitted _ _ Hpos)); simpl.
  split; [apply find_shipment_applied, Hf|].
  intros oid' Hne. unfold applied. rewrite db_shipment_moved_all.
  unfold status_written; simpl.
  apply find_one_update_one_other; [reflexivity|].
  intros d Hd. destruct (find_one_Some _ _ _ Hf) as [_ Hk].
  unfold shipment_id_is in *. apply N.eqb_eq in Hd, Hk. apply N.eqb_neq.
  congruence.
Qed.

Lemma update_shipment_status_frame_witness :
  available created
  /\ ObjectId_of_string shp1_id = Some 2%N
  /\ find_one (shipment_id_is 2%N) (db_shipment created) = Some shp1_created
  /\ lines_positive shp1_created
  /\ find_one (shipment_id_is 2%N)
       (db_shipment (after (update_shipment_status shp1_id
                                                   (status_body "picked"))
                           created))
     = Some (set_status "picked" shp1_created).
Proof.
  assert (H1 : available created) by reflexivity.
  assert (H2 : ObjectId_of_string shp1_id = Some 2%N) by reflexivity.
  assert (H3 : find_one (shipment_id_is 2%N) (db_shipment created)
               = Some shp1_created) by reflexivity.
  assert (H4 : lines_positive shp1_created)
    by (apply Forall_cons; [reflexivity | apply Forall_nil]).
  split; [exact H1|]. split; [exact H2|]. split; [exact H3|].
  split; [exact H4|].
  exact (proj1 (update_shipment_status_frame shp1_id 2%N shp1_created
                  (status_body "picked") created H1 H2 H3 H4)).
Defined.

(** ** [update_shipment_status]: a failure among the lines *)

Lemma inventory_move_three (mv : InventoryMovement) (s : State)
      (o : list bool) :
  outages s = false :: false :: false :: o ->
  inventory_move mv s = (Ok (move_response mv s), moved mv s).
Proof.
  intros E. run_handler. repeat (simpl; rewrite ?E).
  destruct (find_one _ (db_stock s)) eqn:F;
    repeat (simpl; rewrite ?E);
    unfold set_stock, set_inventorymovement, set_next_oid, set_outages;
    simpl; rewrite ?E; reflexivity.
Qed.

Lemma for_each_prefix (type w : string) (ship : ShipmentDoc)
      (l1 rest : list MovementItem) (s : State) (o : list bool) :
  outages s = repeat false (List.length l1 * 3) ++ o ->
  Forall (fun it => gt0 (it_quantity it) = true) l1 ->
  for_each (l1 ++ rest) (move_line type w ship) s
  = for_each rest (move_line type w ship)
             (moved_all (map (line_movement type w ship) l1) s)
  /\ outages (moved_all (map (line_movement type w ship) l1) s) = o.
Proof.
  revert s. induction l1 as [|a r IH]; intros s E Hpos.
  - split; [reflexivity | exact E].
  - inversion Hpos as [|? ? Ha Hr]; subst. simpl in E.
    assert (Hm : move_line type w ship a s
                 = (Ok tt, moved (line_movement type w ship a) s)).
    { unfold move_line, InventoryMovement_validate. unfold bind at 1. simpl.
      rewrite Ha. unfold ret at 1. unfold bind at 1.
      rewrite (inventory_move_three _ _ _ E). reflexivity. }
    assert (E' : outages (moved (line_movement type w ship a) s)
                 = repeat false (List.length r * 3) ++ o).
    { unfold moved; simpl. rewrite E. reflexivity. }
    destruct (IH _ E' Hr) as [H1 H2].
    split; [|exact H2].
    simpl. unfold bind at 1. rewrite Hm. exact H1.
Qed.

Lemma read_shipment_head (shipment_id : string) (oid : ObjectId)
      (ship : ShipmentDoc) (s : State) (o : list bool) :
  outages s = false :: o ->
  ObjectId_of_string shipment_id = Some oid ->
  find_one (shipment_id_is oid) (db_shipment s) = Some ship ->
  read_shipment shipment_id s = (Ok ship, set_outages o s).
Proof.
  intros E Hid Hf.
  unfold read_shipment, to_obj_id, shipment_find_one, storage_call, bind, ret.
  rewrite Hid, E. simpl. rewrite Hf. reflexivity.
Qed.

Lemma shipment_update_one_head (oid : ObjectId) (status : string)
      (s : State) (o : list bool) :
  outages s = false :: o ->
  shipment_update_one oid status s
  = (Ok tt, set_shipment (update_one (shipment_id_is oid) (set_status status)
                                     (db_shipment (set_outages o s)))
                         (set_outages o s)).
Proof.
  intros E. unfold shipment_update_one, storage_call, bind. rewrite E.
  reflexivity.
Qed.

Lemma move_line_storage_failure (type w : string) (ship : ShipmentDoc)
      (it : MovementItem) (s : State) (o : list bool) :
  outages s = true :: o ->
  gt0 (it_quantity it) = true ->
  move_line type w ship it s = (Raise StorageError, set_outages o s).
Proof.
  intros E Hq. unfold move_line, InventoryMovement_validate, bind at 1.
  simpl. rewrite Hq. unfold ret at 1. unfold bind at 1.
  rewrite (inventory_move_storage_failure _ _ _ E). reflexivity.
Qed.

(** X20: no rollback across lines.  When 'picked' is requested and the
    store fails while the movement of one line is persisted, the request
    ends in [StorageError] with the status already written as 'picked' and
    the out-movements of the lines before that one recorded and applied to
    the stock; the remaining lines have no movement. *)
Theorem picked_partial_failure
        (shipment_id : string) (oid : ObjectId) (ship : ShipmentDoc)
        (l1 l2 : list MovementItem) (it : MovementItem) (s : State) :
  ObjectId_of_string shipment_id = Some oid ->
  find_one (shipment_id_is oid) (db_shipment s) = Some ship ->
  sh_items ship = l1 ++ it :: l2 ->
  lines_positive ship ->
  fails_after (2 + List.length l1 * 3) s ->
  let body := status_body "picked" in
  let outs := map (line_movement "out" (sh_origin_warehouse_id ship) ship) l1 in
  let s' := after (update_shipment_status shipment_id body) s in
  outcome (update_shipment_status shipment_id body) s = Raise StorageError
  /\ stored_status s' oid = Some "picked"
  /\ ledger s' = ledger s ++ outs
  /\ forall w i, stock_quantity s' w i
                 = replay_from (stock_quantity s w i) outs w i.
Proof.
  intros Hid Hf Hitems Hpos [o E]. cbv zeta. simpl in E.
  unfold lines_positive in Hpos. rewrite Hitems in Hpos.
  apply Forall_app in Hpos. destruct Hpos as [Hpos1 Hpos2].
  inversion Hpos2 as [|? ? Hit _]; subst.
  set (s1 := mkState (db_inventorymovement s) (db_stock s)
               (update_one (shipment_id_is (sh_id ship)) (set_status "picked")
                           (db_shipment s))
               (next_oid s)
               (repeat false (List.length l1 * 3) ++ true :: o)).
  set (outs := map (line_movement "out" (sh_origin_warehouse_id ship) ship) l1).
  assert (E1 : outages s1 = repeat false (List.length l1 * 3) ++ true :: o)
    by reflexivity.
  destruct (for_each_prefix "out" (sh_origin_warehouse_id ship) ship
              l1 (it :: l2) s1 (true :: o) E1 Hpos1) as [Hloop E2].
  fold outs in Hloop, E2. set (s2 := moved_all outs s1) in *.
  assert (Hrun : update_shipment_status shipment_id (status_body "picked") s
                 = (Raise StorageError, set_outages o s2)).
  { unfold update_shipment_status. unfold bind at 1.
    rewrite (read_shipment_head _ _ _ _ _ E Hid Hf).
    unfold apply_status. unfold bind at 1.
    erewrite shipment_update_one_head by reflexivity.
    change (set_shipment _ _) with s1. simpl body_status.
    unfold bind at 1. simpl (_ =? "picked"). rewrite Hitems, Hloop.
    simpl for_each. unfold bind at 1.
    rewrite (move_line_storage_failure _ _ _ _ _ _ E2 Hit). reflexivity. }
  unfold outcome, after. rewrite Hrun. simpl.
  assert (Hled : ledger s2 = ledger s ++ outs)
    by (unfold s2; rewrite ledger_moved_all; reflexivity).
  split; [reflexivity|]. split; [|split].
  - unfold stored_status. simpl. unfold s2. rewrite db_shipment_moved_all.
    simpl. destruct (find_one_Some _ _ _ Hf) as [_ Hk].
    unfold shipment_id_is in Hk. apply N.eqb_eq in Hk. rewrite Hk.
    fold (shipment_id_is oid).
    rewrite find_one_update_one_same by (intros; assumption).
    rewrite Hf. reflexivity.
  - exact Hled.
  - intros w i.
    change (stock_quantity (set_outages o s2) w i) with (stock_quantity s2 w i).
    unfold s2. rewrite stock_quantity_moved_all; [reflexivity|].
    unfold outs. rewrite Forall_map. apply Forall_forall. intros x _.
    right. reflexivity.
Qed.

Lemma picked_partial_failure_witness :
  ObjectId_of_string "000000000000000000000009" = Some 9%N
  /\ find_one (shipment_id_is 9%N) (db_shipment two_lines) = Some shp_two_lines
  /\ fails_after (2 + 1 * 3) two_lines
  /\ outcome (update_shipment_status "000000000000000000000009"
                                     (status_body "picked")) two_lines
     = Raise StorageError
  /\ stored_status
       (after (update_shipment_status "000000000000000000000009"
                                      (status_body "picked")) two_lines) 9%N
     = Some "picked".
Proof.
  assert (H1 : ObjectId_of_string "000000000000000000000009" = Some 9%N)
    by reflexivity.
  assert (H2 : find_one (shipment_id_is 9%N) (db_shipment two_lines)
               = Some shp_two_lines) by reflexivity.
  assert (H3 : sh_items shp_two_lines
               = [mkMovementItem "A" 5] ++ mkMovementItem "B" 2 :: [])
    by reflexivity.
  assert (H4 : lines_positive shp_two_lines)
    by (apply Forall_cons; [reflexivity|];
        apply Forall_cons; [reflexivity | apply Forall_nil]).
  assert (H5 : fails_after (2 + 1 * 3) two_lines)
    by (exists []; reflexivity).
  split; [exact H1|]. split; [exact H2|]. split; [exact H5|].
  destruct (picked_partial_failure _ 9%N shp_two_lines _ _ _ two_lines
              H1 H2 H3 H4 H5) as (Ho & Hs & _).
  split; [exact Ho | exact Hs].
Defined.

(** ** [list_shipments] *)

Lemma insert_desc_perm (d : ShipmentDoc) (l : list ShipmentDoc) :
  Permutation (insert_desc d l) (d :: l).
Proof.
  induction l as [|x r IH]; simpl; [apply Permutation_refl|].
  destruct (sh_id x <? sh_id d)%N; [apply Permutation_refl|].
  apply Permutation_trans with (x :: d :: r);
    [apply perm_skip, IH | apply perm_swap].
Qed.

Lemma sort_desc_perm (l : list ShipmentDoc) : Permutation (sort_desc l) l.
Proof.
  induction l as [|d r IH]; simpl; [apply Permutation_refl|].
  apply Permutation_trans with (d :: sort_desc r);
    [apply insert_desc_perm | apply perm_skip, IH].
Qed.

Lemma insert_desc_HdRel (x d : ShipmentDoc) (l : list ShipmentDoc) :
  (sh_id d <= sh_id x)%N ->
  HdRel (fun a b => (sh_id b <= sh_id a)%N) x l ->
  HdRel (fun a b => (sh_id b <= sh_id a)%N) x (insert_desc d l).
Proof.
  intros Hd Hl. destruct l as [|y r]; simpl.
  - constructor. exact Hd.
  - destruct (sh_id y <? sh_id d)%N; constructor; [exact Hd|].
    inversion Hl; assumption.
Qed.

Lemma insert_desc_sorted (d : ShipmentDoc) (l : list ShipmentDoc) :
  descending l -> descending (insert_desc d l).
Proof.
  unfold descending. induction 1 as [|x r Hr IH Hx]; simpl.
  - repeat constructor.
  - destruct (sh_id x <? sh_id d)%N eqn:E.
    + apply N.ltb_lt in E. constructor; [constructor; assumption|].
      constructor. lia.
    + apply N.ltb_ge in E. constructor; [exact IH|].
      apply insert_desc_HdRel; assumption.
Qed.

Lemma sort_desc_sorted (l : list ShipmentDoc) : descending (sort_desc l).
Proof.
  induction l as [|d r IH]; simpl; [constructor|].
  apply insert_desc_sorted, IH.
Qed.

Lemma descending_firstn (n : nat) (l : list ShipmentDoc) :
  descending l -> descending (firstn n l).
Proof.
  unfold descending. intros H. revert n.
  induction H as [|x r Hr IH Hx]; intros [|n]; simpl; try constructor.
  - apply IH.
  - destruct r as [|y t]; destruct n; simpl; constructor.
    inversion Hx; assumption.
Qed.

Lemma list_shipments_run (limit : Z) (s : State) (out : list ShipmentOut) :
  outcome (list_shipments limit) s = Ok out ->
  out = map shipment_out (cursor_limit limit (sort_desc (db_shipment s))).
Proof.
  unfold outcome, list_shipments, bind, storage_call.
  destruct (outages s) as [|[|] o]; simpl; intros H;
    inversion H; reflexivity.
Qed.

(** X21: GET /shipments only reads.  Its answer lists stored shipments
    by id, greatest first; with limit 0 (no limit) it lists them all, a
    limit other than zero bounds their number by its absolute value; and
    the three collections are as they were. *)
Theorem list_shipments_sorted (limit : Z) (s : State)
        (out : list ShipmentOut) :
  outcome (list_shipments limit) s = Ok out ->
  let s' := after (list_shipments limit) s in
  (exists docs,
      out = map shipment_out docs
      /\ descending docs
      /\ (forall d, In d docs -> In d (db_shipment s))
      /\ (limit = 0%Z -> Permutation docs (db_shipment s))
      /\ (limit <> 0%Z -> (List.length docs <= Z.abs_nat limit)%nat))
  /\ db_shipment s' = db_shipment s
  /\ db_stock s' = db_stock s
  /\ db_inventorymovement s' = db_inventorymovement s.
Proof.
  intros Hout. cbv zeta. split.
  - exists (cursor_limit limit (sort_desc (db_shipment s))).
    split; [apply list_shipments_run, Hout|]. split; [|split; [|split]].
    + unfold cursor_limit. destruct (limit =? 0)%Z.
      * apply sort_desc_sorted.
      * apply descending_firstn, sort_desc_sorted.
    + intros d Hd. apply cursor_limit_In in Hd.
      apply (Permutation_in _ (sort_desc_perm _)), Hd.
    + intros ->. apply sort_desc_perm.
    + apply cursor_limit_length.
  - unfold after, list_shipments, bind, storage_call.
    destruct (outages s) as [|[|] o]; simpl; repeat split.
Qed.

Lemma list_shipments_sorted_witness :
  outcome (list_shipments 50) delivered
  = Ok [mkShipmentOut "000000000000000000000002" "SHP-1" "W1" (Some "W2")
                      None "delivered" [mkMovementItem "A" 5]]
  /\ db_shipment (after (list_shipments 50) delivered) = db_shipment delivered.
Proof.
  assert (H : outcome (list_shipments 50) delivered
              = Ok [mkShipmentOut "000000000000000000000002" "SHP-1" "W1"
                                  (Some "W2") None "delivered"
                                  [mkMovementItem "A" 5]])
    by (vm_compute; reflexivity).
  split; [exact H|].
  exact (proj1 (proj2 (list_shipments_sorted 50 delivered _ H))).
Defined.

(** ** Shipments and the replay of the ledger *)

(** X22: a status request that is answered keeps the stock of every key
    equal to the replay, in submission order and in binary64, of the
    movements on record: the movements it records are of type 'in' or
    'out' only, and each is applied to the stock of its key as it is
    recorded. *)
Theorem update_shipment_status_keeps_replay
        (shipment_id : string) (oid : ObjectId) (ship : ShipmentDoc)
        (body : ShipmentUpdateStatus) (s : State) :
  available s ->
  ObjectId_of_string shipment_id = Some oid ->
  find_one (shipment_id_is oid) (db_shipment s) = Some ship ->
  lines_positive ship ->
  stock_follows_ledger s ->
  stock_follows_ledger (after (update_shipment_status shipment_id body) s).
Proof.
  intros Hs Hid Hf Hpos Hinv w i.
  destruct (update_shipment_status_effect _ _ _ body _ Hs Hid Hf Hpos)
    as (_ & _ & _ & Hl & Hq).
  cbv zeta in Hl, Hq. rewrite Hl, Hq. unfold replay_in_order.
  rewrite replay_from_app. fold (replay_in_order (ledger s) w i).
  rewrite <- (Hinv w i). reflexivity.
Qed.

Lemma update_shipment_status_keeps_replay_witness :
  available created
  /\ ObjectId_of_string shp1_id = Some 2%N
  /\ find_one (shipment_id_is 2%N) (db_shipment created) = Some shp1_created
  /\ lines_positive shp1_created
  /\ stock_follows_ledger created
  /\ stock_follows_ledger picked.
Proof.
  assert (H1 : available created) by reflexivity.
  assert (H2 : ObjectId_of_string shp1_id = Some 2%N) by reflexivity.
  assert (H3 : find_one (shipment_id_is 2%N) (db_shipment created)
               = Some shp1_created) by reflexivity.
  assert (H4 : lines_positive shp1_created)
    by (apply Forall_cons; [reflexivity | apply Forall_nil]).
  assert (H5 : stock_follows_ledger created).
  { intros w i.
    change (stock_quantity created w i)
      with (stock_quantity (moved in_10 empty_db) w i).
    change (ledger created) with (ledger (moved in_10 empty_db)).
    apply moved_follows_ledger; [left; reflexivity|].
    intros w' i'. reflexivity. }
  split; [exact H1|]. split; [exact H2|]. split; [exact H3|].
  split; [exact H4|]. split; [exact H5|].
  exact (update_shipment_status_keeps_replay shp1_id 2%N shp1_created
           (status_body "picked") created H1 H2 H3 H4 H5).
Defined.

(** ** [inventory_move] and the level of the stock *)


